(** * Knecta code-execution sandbox: the [/execute] handler

    A shallow embedding of [infra/sandbox/executor.py].  The handler is
    a Flask view: it receives the parsed JSON body, allocates a scratch
    directory under [TMP_DIR], writes the wrapped user program there,
    runs it in a child interpreter under a timeout, collects the PNG
    files the run left behind and removes the scratch directory again.

    The file system is an explicit state that is threaded through the
    handler; whatever the operating system and the child process decide
    on their own (which temporary names are drawn, whether a write
    fails, how the child ends, whether the directory can be removed) is
    read from an environment record.  Python values are modelled by a
    small universe that covers what [request.get_json()] can return.
    JSON numbers with a fractional part are outside the model. *)

From Stdlib Require Import ZArith Lia Ascii.
From Stdlib.Strings Require Import Byte.
From stdpp Require Import base strings gmap list sorting pretty.

Local Set Warnings "-register-all".

(** ** Characters that cannot be written inside a literal *)

Definition dquote : string := String (ascii_of_nat 34) "".
Definition newline : string := String (ascii_of_nat 10) "".
Definition backslash : ascii := ascii_of_nat 92.
Definition squote : ascii := ascii_of_nat 39.

(** ** Python values and exceptions *)

Module Py.

(** What [json.loads] produces.  A dictionary keeps its keys in
    insertion order; the parser never yields the same key twice. *)
Inductive pyval :=
| PNone
| PBool (b : bool)
| PInt (n : Z)
| PStr (s : string)
| PList (xs : list pyval)
| PDict (kvs : list (string * pyval)).

(** [TimeoutExpired] is the one exception the handler tells apart;
    every other exception is an instance of [Exception] with a class
    name and the text that [str(e)] gives. *)
Inductive exn :=
| TimeoutExpired
| Error (cls : string) (msg : string).

Inductive result (A : Type) :=
| Ok (a : A)
| Raise (e : exn).
Global Arguments Ok {A} a.
Global Arguments Raise {A} e.

Global Instance result_ret : MRet result := fun _ a => Ok a.
Global Instance result_bind : MBind result := fun _ _ f m =>
  match m with Ok a => f a | Raise e => Raise e end.

(** [bool(v)] *)
Definition truthy (v : pyval) : bool :=
  match v with
  | PNone => false
  | PBool b => b
  | PInt n => negb (n =? 0)%Z
  | PStr s => negb (String.eqb s "")
  | PList xs => negb (bool_decide (xs = []))
  | PDict kvs => negb (bool_decide (kvs = []))
  end.

(** The name Python prints for the type of a value. *)
Definition type_name (v : pyval) : string :=
  match v with
  | PNone => "NoneType"
  | PBool _ => "bool"
  | PInt _ => "int"
  | PStr _ => "str"
  | PList _ => "list"
  | PDict _ => "dict"
  end.

(** [needle in hay] for two strings: substring search. *)
Fixpoint is_infix (needle hay : string) : bool :=
  String.prefix needle hay ||
  match hay with
  | EmptyString => false
  | String _ hay' => is_infix needle hay'
  end.

Definition is_str (k : string) (v : pyval) : bool :=
  match v with PStr s => String.eqb s k | _ => false end.

Fixpoint dict_lookup (k : string) (kvs : list (string * pyval)) : option pyval :=
  match kvs with
  | [] => None
  | (k', v) :: rest => if String.eqb k' k then Some v else dict_lookup k rest
  end.

(** [k in v] for a string [k]: key membership for a dictionary,
    element membership for a list, substring test for a string; the
    remaining types are not containers.  The texts of the built-in
    errors here and below are those of CPython 3.11; no property
    depends on them. *)
Definition contains (k : string) (v : pyval) : result bool :=
  match v with
  | PDict kvs => Ok (bool_decide (is_Some (dict_lookup k kvs)))
  | PList xs => Ok (existsb (is_str k) xs)
  | PStr s => Ok (is_infix k s)
  | _ => Raise (Error "TypeError"
                  ("argument of type '" +:+ type_name v +:+ "' is not iterable"))
  end.

(** [v[k]] for a string [k]. *)
Definition getitem (v : pyval) (k : string) : result pyval :=
  match v with
  | PDict kvs =>
      match dict_lookup k kvs with
      | Some x => Ok x
      | None => Raise (Error "KeyError" ("'" +:+ k +:+ "'"))
      end
  | PList _ => Raise (Error "TypeError" "list indices must be integers or slices, not str")
  | PStr _ => Raise (Error "TypeError" "string indices must be integers")
  | _ => Raise (Error "TypeError"
                  ("'" +:+ type_name v +:+ "' object is not subscriptable"))
  end.

(** [v.get(k, default)]; only dictionaries have the method. *)
Definition get (v : pyval) (k : string) (default : pyval) : result pyval :=
  match v with
  | PDict kvs => Ok (from_option id default (dict_lookup k kvs))
  | _ => Raise (Error "AttributeError"
                  ("'" +:+ type_name v +:+ "' object has no attribute 'get'"))
  end.

(** The integer behind a number; [bool] is a subclass of [int]. *)
Definition as_int (v : pyval) : option Z :=
  match v with
  | PInt n => Some n
  | PBool b => Some (if b then 1 else 0)%Z
  | _ => None
  end.

(** [min(v, m)] for an integer [m]: the builtin starts from its first
    argument and replaces it only when the second is strictly
    smaller, so the first argument wins a tie and keeps its type. *)
Definition min_int (v : pyval) (m : Z) : result pyval :=
  match as_int v with
  | Some n => Ok (if (m <? n)%Z then PInt m else v)
  | None => Raise (Error "TypeError"
                     ("'<' not supported between instances of 'int' and '"
                      +:+ type_name v +:+ "'"))
  end.

(** [v * k] for an integer [k], on the numbers. *)
Definition mul_int (v : pyval) (k : Z) : pyval :=
  match as_int v with
  | Some n => PInt (n * k)
  | None => PNone
  end.

(** [repr] of a string: single quotes unless the text has a single
    quote and no double quote; backslash, the chosen quote and the
    control characters are escaped.  Bytes from 128 on stand for
    UTF-8 encoded printable characters and are kept. *)
Definition hex_digit (n : N) : ascii :=
  match String.get (N.to_nat n) "0123456789abcdef" with
  | Some c => c
  | None => "0"%char
  end.

Definition repr_char (q c : ascii) : string :=
  if Ascii.eqb c backslash then String backslash (String backslash "")
  else if Ascii.eqb c q then String backslash (String q "")
  else if Ascii.eqb c (ascii_of_nat 10) then String backslash "n"
  else if Ascii.eqb c (ascii_of_nat 13) then String backslash "r"
  else if Ascii.eqb c (ascii_of_nat 9) then String backslash "t"
  else let n := N_of_ascii c in
       if (n <? 32)%N || (n =? 127)%N
       then String backslash
              (String "x" (String (hex_digit (n / 16)) (String (hex_digit (n mod 16)) "")))
       else String c "".

Fixpoint repr_chars (q : ascii) (s : string) : string :=
  match s with
  | EmptyString => ""
  | String c s' => repr_char q c +:+ repr_chars q s'
  end.

Definition repr_str (s : string) : string :=
  let q := if is_infix (String squote "") s && negb (is_infix dquote s)
           then ascii_of_nat 34 else squote in
  String q (repr_chars q s) +:+ String q "".

Fixpoint join (sep : string) (parts : list string) : string :=
  match parts with
  | [] => ""
  | [p] => p
  | p :: rest => p +:+ sep +:+ join sep rest
  end.

Fixpoint repr (v : pyval) : string :=
  match v with
  | PNone => "None"
  | PBool true => "True"
  | PBool false => "False"
  | PInt n => pretty n
  | PStr s => repr_str s
  | PList xs => "[" +:+ join ", " (map repr xs) +:+ "]"
  | PDict kvs =>
      "{" +:+ join ", " (map (fun kv => match kv with
                                        | (k, x) => repr_str k +:+ ": " +:+ repr x
                                        end) kvs) +:+ "}"
  end.

(** [str(v)], which is also what an f-string field [{v}] inserts. *)
Definition str (v : pyval) : string :=
  match v with
  | PStr s => s
  | _ => repr v
  end.

End Py.

(** ** Base64, the standard alphabet with padding *)

Module Base64.

Definition alphabet : string :=
  "ABCDEFGHIJKLMNOPQRSTUVWXYZabcdefghijklmnopqrstuvwxyz0123456789+/".

Definition pad : ascii := "="%char.

(** The character of a six-bit value. *)
Definition digit (n : N) : ascii :=
  from_option id pad (String.get (N.to_nat n) alphabet).

(** The six-bit value of a character of the alphabet. *)
Fixpoint index_of (c : ascii) (s : string) (i : N) : option N :=
  match s with
  | EmptyString => None
  | String d s' => if Ascii.eqb c d then Some i else index_of c s' (N.succ i)
  end.

Definition value (c : ascii) : option N := index_of c alphabet 0.

(** Three bytes are one 24-bit group, written as four six-bit
    digits; a last group of one or two bytes is filled with zero
    bits and its unused digits are written as padding. *)
Definition group (a b c : byte) : N :=
  (Byte.to_N a * 65536 + Byte.to_N b * 256 + Byte.to_N c)%N.

Definition sextet (n k : N) : N := N.land (N.shiftr n (6 * k)) 63.

Definition digit_at (n : N) (k : N) : ascii := digit (sextet n k).

Fixpoint b64encode (bs : list byte) : string :=
  match bs with
  | [] => ""
  | [a] =>
      let n := group a x00 x00 in
      String (digit_at n 3) (String (digit_at n 2) (String pad (String pad "")))
  | [a; b] =>
      let n := group a b x00 in
      String (digit_at n 3) (String (digit_at n 2)
        (String (digit_at n 1) (String pad "")))
  | a :: b :: c :: rest =>
      let n := group a b c in
      String (digit_at n 3) (String (digit_at n 2)
        (String (digit_at n 1) (String (digit_at n 0) (b64encode rest))))
  end.

(** The inverse, used to say that an encoded payload is valid. *)
Definition ungroup (v3 v2 v1 v0 : N) : N :=
  (((v3 * 64 + v2) * 64 + v1) * 64 + v0)%N.

Definition byte_at (n : N) (k : N) : option byte :=
  Byte.of_N (N.land (N.shiftr n (8 * k)) 255).

Fixpoint b64decode (s : string) : option (list byte) :=
  match s with
  | EmptyString => Some []
  | String c3 (String c2 (String c1 (String c0 rest))) =>
      v3 ← value c3;
      v2 ← value c2;
      if Ascii.eqb c1 pad then
        if Ascii.eqb c0 pad && String.eqb rest "" then
          a ← byte_at (ungroup v3 v2 0 0) 2; Some [a]
        else None
      else
        v1 ← value c1;
        if Ascii.eqb c0 pad then
          if String.eqb rest "" then
            a ← byte_at (ungroup v3 v2 v1 0) 2;
            b ← byte_at (ungroup v3 v2 v1 0) 1;
            Some [a; b]
          else None
        else
          v0 ← value c0;
          a ← byte_at (ungroup v3 v2 v1 v0) 2;
          b ← byte_at (ungroup v3 v2 v1 v0) 1;
          c ← byte_at (ungroup v3 v2 v1 v0) 0;
          tail ← b64decode rest;
          Some (a :: b :: c :: tail)
  | _ => None
  end.

End Base64.

(** ** The file system *)

Module Fs.

(** A path names a regular file with its bytes, a directory, a
    symbolic link with the absolute path it stands for, or a regular
    file that the server has no permission to read.  The file system
    is flat: one entry per absolute path.  Special files on which
    [open] waits (a FIFO without a writer) are not modelled: with one
    of them the view does not return, and the properties below speak
    of the views that do. *)
Inductive node :=
| File (data : list byte)
| Dir
| Symlink (target : string)
| Unreadable.

Abbreviation fsys := (gmap string node).

(** [os.path.join(d, n)] for a directory path without a trailing
    slash and a relative name, the only way the handler calls it. *)
Definition path_join (d n : string) : string := d +:+ "/" +:+ n.

Fixpoint drop_chars (k : nat) (s : string) : string :=
  match k, s with
  | O, _ => s
  | S k', String _ s' => drop_chars k' s'
  | S _, EmptyString => ""
  end.

Definition ends_with (suffix s : string) : bool :=
  String.eqb (drop_chars (String.length s - String.length suffix) s) suffix
  && (String.length suffix <=? String.length s)%nat.

Definition has_slash (s : string) : bool := Py.is_infix "/" s.

(** The name of [p] inside directory [d], when [p] lies below [d]. *)
Definition name_under (d p : string) : option string :=
  if String.prefix (d +:+ "/") p
  then Some (drop_chars (String.length d + 1) p)
  else None.

(** [fnmatch] of a name against [*.png] as [glob] applies it: the
    name ends in [.png], and a leading dot is not matched by the
    star. *)
Definition matches_png (n : string) : bool :=
  ends_with ".png" n && negb (String.prefix "." n).

(** [glob.glob(os.path.join(d, '*.png'))]: the entries directly in
    [d], of either kind, whose name matches; the paths come in no
    particular order. *)
Definition is_png_of (d p : string) : bool :=
  match name_under d p with
  | Some n => negb (has_slash n) && matches_png n
  | None => false
  end.

Definition glob_png (d : string) (fs : fsys) : list string :=
  List.filter (is_png_of d) (map fst (map_to_list fs)).

(** [sorted] on strings. *)
Definition sorted (l : list string) : list string := merge_sort String.le l.

(** [os.path.basename]: what follows the last slash. *)
Fixpoint basename (p : string) : string :=
  match p with
  | EmptyString => ""
  | String _ rest => if has_slash p then basename rest else p
  end.

(** What [open(path, 'rb')] finds: symbolic links are followed, at
    most forty of them in a row. *)
Inductive opened :=
| Bytes (data : list byte)
| IsDir
| Missing
| Denied
| Loop.

Definition MAXSYMLINKS : nat := 40.

Fixpoint open_at (hops : nat) (path : string) (fs : fsys) : opened :=
  match fs !! path with
  | Some (File data) => Bytes data
  | Some Dir => IsDir
  | Some Unreadable => Denied
  | Some (Symlink target) =>
      match hops with
      | O => Loop
      | S hops' => open_at hops' target fs
      end
  | None => Missing
  end.

(** Whether [p] is [d] itself or lies anywhere below it. *)
Definition within (d p : string) : bool :=
  String.eqb p d || String.prefix (d +:+ "/") p.

Definition remove_tree (d : string) (fs : fsys) : fsys :=
  filter (fun kv => negb (within d kv.1)) fs.

End Fs.

(** ** The handler *)

Module Executor.
Import Py Base64 Fs.

Definition TIMEOUT_DEFAULT : Z := 30.
Definition TIMEOUT_MAX : Z := 60.
Definition TMP_DIR : string := "/tmp/sandbox".

(** *** The program text that is staged

    The f-string of the handler is a fixed text with holes: the
    scratch directory, twice, and the submitted code, once. *)
Inductive piece :=
| Lit (s : string)
| ExecDir
| Code.

Definition ln (s : string) : piece := Lit (s +:+ newline).

Definition template : list piece :=
  [ ln "";
    ln "import os";
    ln "import sys";
    ln "import matplotlib";
    ln "matplotlib.use('Agg')  # Non-interactive backend";
    ln "import matplotlib.pyplot as plt";
    ln "";
    ln "# Change to execution directory for file output";
    Lit ("os.chdir(" +:+ dquote); ExecDir; ln (dquote +:+ ")");
    ln "";
    ln "# User code starts here";
    Code; ln "";
    ln "";
    ln "# Auto-save any open matplotlib figures";
    ln "for i, fig_num in enumerate(plt.get_fignums()):";
    ln "    fig = plt.figure(fig_num)";
    Lit ("    fig.savefig(os.path.join(" +:+ dquote); ExecDir;
    ln (dquote +:+ ", f" +:+ dquote +:+ "figure_{i}.png" +:+ dquote
        +:+ "), dpi=150, bbox_inches='tight')");
    ln "    plt.close(fig)" ].

Definition fill (exec_dir code : string) (p : piece) : string :=
  match p with
  | Lit s => s
  | ExecDir => exec_dir
  | Code => code
  end.

Definition render (exec_dir code : string) (t : list piece) : string :=
  foldr (fun p acc => fill exec_dir code p +:+ acc) "" t.

Definition wrapped_code (exec_dir : string) (code : pyval) : string :=
  render exec_dir (str code) template.

(** *** What the handler does not decide *)

(** How [subprocess.run] ends: the child exits by itself, or it is
    still running when the timeout expires, in which case [run] kills
    it and raises [TimeoutExpired] (the output captured so far stays
    in the exception), or the call fails in another way. *)
Inductive ending :=
| Exited (stdout stderr : string) (returncode : Z)
| TimedOut (stdout stderr : string)
| Failed (cls msg : string).

(** A run of the child: how it ended, the file system it left (the
    child is not confined, so it may have written anywhere) and the
    milliseconds the handler measured around the call. *)
Record run := {
  how : ending;
  fs_after : fsys;
  elapsed_ms : Z;
}.

(** A failure while the script is written: the class and the text of
    the exception, and what is in the file at that moment.  [open]
    with mode [w] creates the file before anything is written, so only
    a failure of [open] itself leaves no file. *)
Record write_failure := {
  failure_class : string;
  failure_text : string;
  left_behind : option (list byte);
}.

Record env := {
  (** the names [tempfile] draws, in order *)
  temp_names : list string;
  (** the error of [mkdir] in the scratch root, if it fails *)
  mkdir_error : option string;
  (** the failure of opening or writing the script, if there is one *)
  write_error : option write_failure;
  (** the child, from the file system at its start, the script path,
      the working directory and the timeout *)
  child : fsys -> string -> string -> pyval -> run;
  (** the error that stops [shutil.rmtree], if it fails *)
  rmtree_error : option string;
}.

(** *** Computations on the file system that may raise *)

Definition M (A : Type) : Type := fsys -> result A * fsys.

Global Instance M_ret : MRet M := fun _ a fs => (Ok a, fs).
Global Instance M_bind : MBind M := fun _ _ f m fs =>
  match m fs with
  | (Ok a, fs') => f a fs'
  | (Raise e, fs') => (Raise e, fs')
  end.

Definition lift {A} (r : result A) : M A := fun fs => (r, fs).

(** [try: m  except: pass] *)
Definition swallow (m : M unit) : M unit := fun fs =>
  match m fs with
  | (Ok _, fs') => (Ok (), fs')
  | (Raise _, fs') => (Ok (), fs')
  end.

(** [try: m  finally: cleanup]: the cleanup runs on every way out of
    [m]; if the cleanup raises, its exception replaces the outcome. *)
Definition finally {A} (m : M A) (cleanup : M unit) : M A := fun fs =>
  let '(r, fs1) := m fs in
  match cleanup fs1 with
  | (Ok _, fs2) => (r, fs2)
  | (Raise e, fs2) => (Raise e, fs2)
  end.

(** [os.mkdir(path)] as [mkdtemp] uses it: the parent has to be a
    directory, the path has to be free, and the creation itself may
    still be refused. *)
Inductive mkdir_result :=
| Made (fs : fsys)
| Exists
| Refused (e : exn).

Definition mkdir (e : env) (dir path : string) (fs : fsys) : mkdir_result :=
  match open_at MAXSYMLINKS dir fs with
  | IsDir =>
      match fs !! path with
      | Some _ => Exists
      | None =>
          match mkdir_error e with
          | Some msg => Refused (Error "OSError" msg)
          | None => Made (<[path := Dir]> fs)
          end
      end
  | Missing =>
      Refused (Error "FileNotFoundError"
                 ("[Errno 2] No such file or directory: " +:+ repr_str path))
  | Loop =>
      Refused (Error "OSError"
                 ("[Errno 40] Too many levels of symbolic links: " +:+ repr_str path))
  | Bytes _ | Denied =>
      Refused (Error "NotADirectoryError"
                 ("[Errno 20] Not a directory: " +:+ repr_str path))
  end.

(** [tempfile.mkdtemp(dir=dir)]: the drawn names are tried in turn;
    a name that exists already is skipped, any other error is
    raised, and the first name that can be made is the new, empty
    directory. *)
Fixpoint mkdtemp_from (e : env) (dir : string) (names : list string) : M string :=
  fun fs =>
  match names with
  | [] =>
      (Raise (Error "FileExistsError"
                "[Errno 17] No usable temporary directory name found"), fs)
  | name :: rest =>
      match mkdir e dir (path_join dir name) fs with
      | Made fs' => (Ok (path_join dir name), fs')
      | Exists => mkdtemp_from e dir rest fs
      | Refused x => (Raise x, fs)
      end
  end.

Definition mkdtemp (e : env) (dir : string) : M string :=
  mkdtemp_from e dir (temp_names e).

(** [with open(path, 'w') as f: f.write(text)] *)
Definition failed_write (w : write_failure) (path : string) (fs : fsys) : fsys :=
  match left_behind w with
  | Some written => <[path := File written]> fs
  | None => fs
  end.

Definition write_text (e : env) (path text : string) : M unit := fun fs =>
  match write_error e with
  | Some w => (Raise (Error (failure_class w) (failure_text w)), failed_write w path fs)
  | None => (Ok (), <[path := File (String.list_byte_of_string text)]> fs)
  end.

(** [subprocess.run([sys.executable, code_file], capture_output=True,
    text=True, timeout=timeout, cwd=cwd, env=...)], together with the
    clock readings around it. *)
Definition subprocess_run (e : env) (code_file cwd : string) (timeout : pyval)
  : M (string * string * Z * Z) := fun fs =>
  let r := child e fs code_file cwd timeout in
  match how r with
  | Exited out err rc => (Ok (out, err, rc, elapsed_ms r), fs_after r)
  | TimedOut _ _ => (Raise TimeoutExpired, fs_after r)
  | Failed cls msg => (Raise (Error cls msg), fs_after r)
  end.

(** [with open(path, 'rb') as f: f.read()]; the errors name the path
    that was asked for. *)
Definition read_bytes (path : string) : M (list byte) := fun fs =>
  match open_at MAXSYMLINKS path fs with
  | Bytes data => (Ok data, fs)
  | IsDir =>
      (Raise (Error "IsADirectoryError"
                ("[Errno 21] Is a directory: " +:+ repr_str path)), fs)
  | Missing =>
      (Raise (Error "FileNotFoundError"
                ("[Errno 2] No such file or directory: " +:+ repr_str path)), fs)
  | Denied =>
      (Raise (Error "PermissionError"
                ("[Errno 13] Permission denied: " +:+ repr_str path)), fs)
  | Loop =>
      (Raise (Error "OSError"
                ("[Errno 40] Too many levels of symbolic links: " +:+ repr_str path)), fs)
  end.

(** [shutil.rmtree(path, ignore_errors=...)] *)
Definition rmtree (e : env) (path : string) (ignore_errors : bool) : M unit := fun fs =>
  match rmtree_error e with
  | Some msg =>
      if ignore_errors then (Ok (), fs) else (Raise (Error "OSError" msg), fs)
  | None => (Ok (), remove_tree path fs)
  end.

(** *** The view *)

Record response := Response { status : Z; body : pyval }.

Definition file_entry (img_path : string) (data : list byte) : pyval :=
  PDict [("name", PStr (basename img_path));
         ("base64", PStr (b64encode data));
         ("mimeType", PStr "image/png")].

(** The loop over the sorted paths, appending one entry per image. *)
Fixpoint read_images (paths : list string) (files : list pyval) : M (list pyval) :=
  match paths with
  | [] => mret files
  | img_path :: rest =>
      data ← read_bytes img_path;
      read_images rest (files ++ [file_entry img_path data])
  end.

Definition collect (exec_dir : string) : M (list pyval) := fun fs =>
  read_images (sorted (glob_png exec_dir fs)) [] fs.

Definition result_body (stdout stderr : string) (returnCode : Z)
    (files : list pyval) (executionTimeMs : pyval) : pyval :=
  PDict [("stdout", PStr stdout);
         ("stderr", PStr stderr);
         ("returnCode", PInt returnCode);
         ("files", PList files);
         ("executionTimeMs", executionTimeMs)].

Definition missing_code : response :=
  Response 400
    (PDict [("error", PStr ("Missing " +:+ dquote +:+ "code" +:+ dquote +:+ " field"))]).

(** The body of the [try]. *)
Definition guarded (e : env) (exec_dir code_file wrapped : string) (timeout : pyval)
  : M response :=
  write_text e code_file wrapped;;
  '(out, err, rc, ms) ← subprocess_run e code_file exec_dir timeout;
  files ← collect exec_dir;
  mret (Response 200 (result_body out err rc files (PInt ms))).

(** The two [except] clauses. *)
Definition handlers (timeout : pyval) (m : M response) : M response := fun fs =>
  match m fs with
  | (Raise TimeoutExpired, fs') =>
      (Ok (Response 200
             (result_body ""
                ("Execution timed out after " +:+ str timeout +:+ " seconds")
                (-1) [] (mul_int timeout 1000))), fs')
  | (Raise (Error _ msg), fs') =>
      (Ok (Response 500 (result_body "" msg (-1) [] (PInt 0))), fs')
  | (Ok r, fs') => (Ok r, fs')
  end.

(** The [finally] clause. *)
Definition cleanup (e : env) (exec_dir : string) : M unit :=
  swallow (rmtree e exec_dir true).

Definition effective_timeout (data : pyval) : result pyval :=
  requested ← get data "timeout" (PInt TIMEOUT_DEFAULT);
  min_int requested TIMEOUT_MAX.

(** [execute()], from the value of [request.get_json()].  A raised
    exception in the outcome is one that leaves the view. *)
Definition execute (e : env) (data : pyval) : M response :=
  if negb (truthy data) then mret missing_code else
  has_code ← lift (contains "code" data);
  if negb has_code then mret missing_code else
  code ← lift (getitem data "code");
  timeout ← lift (effective_timeout data);
  exec_dir ← mkdtemp e TMP_DIR;
  let code_file := path_join exec_dir "script.py" in
  let wrapped := wrapped_code exec_dir code in
  finally (handlers timeout (guarded e exec_dir code_file wrapped timeout))
          (cleanup e exec_dir).

End Executor.

(** ** The export loop at the end of the staged program

    The last four lines of the program text are Python of their own:
    they run in the child after the submitted code.  They are embedded
    here against a small model of the figure registry of pyplot. *)

Module Pyplot.
Import Fs.

(** A figure is known by the PNG bytes it renders to at a given
    resolution. *)
Definition figure : Type := Z -> list byte.

(** The open figures by their number. *)
Abbreviation registry := (gmap Z figure).

(** [plt.get_fignums()]: the numbers of the open figures, increasing.
    Figures are numbered as they are created. *)
Definition get_fignums (reg : registry) : list Z :=
  merge_sort Z.le (map fst (map_to_list reg)).

(** [plt.figure(num)]: the figure of that number; a number that is
    not in use opens a new, blank figure. *)
Definition plt_figure (blank : figure) (num : Z) (reg : registry) : figure * registry :=
  match reg !! num with
  | Some fig => (fig, reg)
  | None => (blank, <[num := blank]> reg)
  end.

(** [f"figure_{i}.png"] *)
Definition figure_name (i : nat) : string := "figure_" +:+ pretty i +:+ ".png".

(** [for i, fig_num in enumerate(nums)], counting from [i]. *)
Fixpoint export (blank : figure) (exec_dir : string) (i : nat) (nums : list Z)
    (reg : registry) (fs : fsys) : registry * fsys :=
  match nums with
  | [] => (reg, fs)
  | fig_num :: rest =>
      let '(fig, reg1) := plt_figure blank fig_num reg in
      let fs1 := <[path_join exec_dir (figure_name i) := File (fig 150%Z)]> fs in
      export blank exec_dir (S i) rest (delete fig_num reg1) fs1
  end.

Definition autosave (blank : figure) (exec_dir : string) (reg : registry) (fs : fsys)
  : registry * fsys :=
  export blank exec_dir 0 (get_fignums reg) reg fs.

(** The number that [plt.figure()] gives to a new figure when none is
    asked for: one more than the highest number in use, 1 when no
    figure is open. *)
Definition next_num (reg : registry) : Z :=
  match get_fignums reg with
  | [] => 1
  | k :: rest => foldr Z.max k rest + 1
  end.

(** A figure comes to be, with the number the program asks for or with
    the next one, and ends up as [fig]. *)
Definition new_figure (num : option Z) (fig : figure) (reg : registry) : registry :=
  <[from_option id (next_num reg) num := fig]> reg.

(** The registry of a program that creates these figures one after
    the other, in the order of the list, and closes none. *)
Definition created (steps : list (option Z * figure)) : registry :=
  foldl (fun reg step => new_figure step.1 step.2 reg) ∅ steps.

(** The same when no number is ever asked for. *)
Definition created_auto (figs : list figure) : registry :=
  created (map (fun fig => (None, fig)) figs).

End Pyplot.

Import Py Base64 Fs Executor Pyplot.

(** ** Requests *)

(** A request the view accepts: a JSON object with a [code] member
    whose [timeout] member, if there is one, is a number. *)
Definition valid_request (data code timeout : pyval) : Prop :=
  exists kvs, data = PDict kvs /\ dict_lookup "code" kvs = Some code
              /\ effective_timeout data = Ok timeout.

(** A body without a [code] member: nothing, an empty value, or a
    container in which the membership test finds no [code] (an object
    without that key, in the first place). *)
Definition lacks_code (data : pyval) : Prop :=
  truthy data = false \/ contains "code" data = Ok false.

(** The member of a response body. *)
Definition field (k : string) (r : response) : option pyval :=
  match body r with
  | PDict kvs => dict_lookup k kvs
  | _ => None
  end.

(** The file system once the program of a request is staged in its
    scratch directory, and the run of the child from there. *)
Definition script_path (exec_dir : string) : string := path_join exec_dir "script.py".

Definition staged (exec_dir : string) (code : pyval) (fs : fsys) : fsys :=
  <[script_path exec_dir := File (String.list_byte_of_string (wrapped_code exec_dir code))]> fs.

Definition child_run (e : env) (exec_dir : string) (code timeout : pyval) (fs : fsys) : run :=
  child e (staged exec_dir code fs) (script_path exec_dir) exec_dir timeout.





(** The bytes of a regular file, the entry that the collection makes
    for a path, and the name an entry carries. *)
Definition file_data (fs : fsys) (path : string) : list byte :=
  match open_at MAXSYMLINKS path fs with
  | Bytes data => data
  | _ => []
  end.

Definition entry_of (fs : fsys) (path : string) : pyval :=
  file_entry path (file_data fs path).

Definition image_entry (name : string) (data : list byte) : pyval :=
  PDict [("name", PStr name); ("base64", PStr (b64encode data));
         ("mimeType", PStr "image/png")].

Definition entry_name (entry : pyval) : string :=
  match entry with
  | PDict (("name", PStr n) :: _) => n
  | _ => ""
  end.

(** The file system after the [finally] clause. *)
Definition after_cleanup (e : env) (exec_dir : string) (fs : fsys) : fsys :=
  match rmtree_error e with
  | Some _ => fs
  | None => remove_tree exec_dir fs
  end.

(** The text of the two bodies the [except] clauses build. *)
Definition timeout_message (timeout : pyval) : string :=
  "Execution timed out after " +:+ str timeout +:+ " seconds".



(** What follows a directory in a path at or below it: nothing, or a
    slash and the rest. *)
Definition segment_end (r : string) : Prop := r = "" \/ exists x, r = "/" +:+ x.

(** The positions of eleven numbered files in the order of their
    names: [figure_10.png] comes right after [figure_1.png]. *)
Definition eleven_by_name : list nat := [0; 1; 10; 2; 3; 4; 5; 6; 7; 8; 9].

(** ** Sample environments and file systems, for the examples *)

Module Sample.

(** The scratch root exists and is empty. *)
Definition fs_ready : fsys := {[ TMP_DIR := Dir ]}.

(** The directory the first request gets. *)
Definition ws : string := path_join TMP_DIR "tmpk3v9qz_x".

(** A child that prints a line and exits with the given code. *)
Definition prints (rc : Z) : fsys -> string -> string -> pyval -> run :=
  fun fs _ _ _ => {| how := Exited ("hello" +:+ newline) "" rc;
                     fs_after := fs; elapsed_ms := 41 |}.

(** A child that is still running at the timeout, after it printed
    something and wrote an image into its working directory. *)
Definition hangs : fsys -> string -> string -> pyval -> run :=
  fun fs _ cwd _ => {| how := TimedOut "partial" "";
                       fs_after := <[path_join cwd "plot.png" := File [x89; x50]]> fs;
                       elapsed_ms := 2003 |}.


(** A child whose program opens two figures, numbered 1 and 2, and
    ends; the export loop of the staged program then runs. *)
Definition bar_chart : figure := fun _ => [x89; x50; x4e; x47; x01].
Definition line_chart : figure := fun _ => [x89; x50; x4e; x47; x02].
Definition two_open : registry := <[2%Z := line_chart]> {[ 1%Z := bar_chart ]}.

Definition draws_two : fsys -> string -> string -> pyval -> run :=
  fun fs _ cwd _ => {| how := Exited "" "" 0;
                       fs_after := (autosave (fun _ => []) cwd two_open fs).2;
                       elapsed_ms := 730 |}.

(** A child whose program ends with eleven open figures, numbered 1
    to 11; the figure with number [k] renders to the single byte [k]. *)
Definition eleven_open : registry :=
  list_to_map (map (fun k => (Z.of_nat k,
                              (fun _ => [default x00 (Byte.of_nat k)]) : figure))
                   (seq 1 11)).

Definition draws_eleven : fsys -> string -> string -> pyval -> run :=
  fun fs _ cwd _ => {| how := Exited "" "" 0;
                       fs_after := (autosave (fun _ => []) cwd eleven_open fs).2;
                       elapsed_ms := 2950 |}.






Definition env_of (child : fsys -> string -> string -> pyval -> run) : env :=
  {| temp_names := ["tmpk3v9qz_x"; "tmp0_8hw2ab"];
     mkdir_error := None;
     write_error := None;
     child := child;
     rmtree_error := None |}.


Definition request (code : string) : pyval := PDict [("code", PStr code)].

End Sample.

(** * Properties *)

Section Validation.

Lemma dict_lookup_truthy k kvs v :
  dict_lookup k kvs = Some v -> truthy (PDict kvs) = true.
Proof. by destruct kvs. Qed.

Lemma valid_request_passes data code t :
  valid_request data code t ->
  truthy data = true /\ contains "code" data = Ok true
  /\ getitem data "code" = Ok code /\ effective_timeout data = Ok t.
Proof.
  intros (kvs & -> & Hc & Ht). repeat split; [by eapply dict_lookup_truthy| | |done].
  - simpl. rewrite Hc. by rewrite bool_decide_eq_true_2.
  - simpl. by rewrite Hc.
Qed.

(** From the first statement after the checks on, an accepted
    request is handled inside [try ... finally]. *)
Lemma execute_valid e data code t fs :
  valid_request data code t ->
  execute e data fs =
    (exec_dir ← mkdtemp e TMP_DIR;
     finally (handlers t (guarded e exec_dir (path_join exec_dir "script.py")
                            (wrapped_code exec_dir code) t))
             (cleanup e exec_dir)) fs.
Proof.
  intros (Htruthy & Hin & Hget & Ht)%valid_request_passes.
  unfold execute. rewrite Htruthy, Hin, Hget, Ht. reflexivity.
Qed.

Lemma execute_staged e data code t fs exec_dir fs1 :
  valid_request data code t ->
  mkdtemp e TMP_DIR fs = (Ok exec_dir, fs1) ->
  execute e data fs =
    finally (handlers t (guarded e exec_dir (path_join exec_dir "script.py")
                           (wrapped_code exec_dir code) t))
            (cleanup e exec_dir) fs1.
Proof.
  intros Hv Hmk. rewrite (execute_valid _ _ _ _ _ Hv).
  unfold mbind, M_bind. by rewrite Hmk.
Qed.

End Validation.

Section Timeout.

Lemma effective_timeout_dict kvs :
  effective_timeout (PDict kvs) =
    min_int (from_option id (PInt TIMEOUT_DEFAULT) (dict_lookup "timeout" kvs)) TIMEOUT_MAX.
Proof. reflexivity. Qed.

Lemma min_int_value v n :
  as_int v = Some n ->
  exists t, min_int v TIMEOUT_MAX = Ok t /\ as_int t = Some (Z.min n TIMEOUT_MAX)
            /\ (TIMEOUT_MAX < n -> t = PInt TIMEOUT_MAX)%Z
            /\ (n <= TIMEOUT_MAX -> t = v)%Z.
Proof.
  intros Hn. unfold min_int. rewrite Hn.
  destruct (Z.ltb_spec TIMEOUT_MAX n) as [Hlt|Hge]; eexists; (split; [reflexivity|]).
  - simpl. split; [f_equal; lia|]. split; [done|lia].
  - rewrite Hn. split; [f_equal; lia|]. split; [lia|done].
Qed.

(** C3 as stated fails: nothing bounds the timeout from below, so a
    request for minus five seconds is accepted with an effective
    timeout of minus five. *)
Lemma effective_timeout_not_positive :
  let data := PDict [("code", PStr "print(1)"); ("timeout", PInt (-5))] in
  valid_request data (PStr "print(1)") (PInt (-5))
  /\ effective_timeout data = Ok (PInt (-5))
  /\ ~ (0 < -5 <= TIMEOUT_MAX)%Z.
Proof.
  split; [|split; [reflexivity|lia]].
  eexists. split; [reflexivity|]. split; reflexivity.
Qed.

(** C3, amended: for a request object whose timeout member is absent
    or a number, the effective timeout is the smaller of the
    requested value (the default when absent) and the maximum; a
    value above the maximum gives the maximum and no error; the
    effective timeout never exceeds the maximum, and it lies in
    (0, MAX] whenever the requested value is absent or positive. *)
Theorem effective_timeout_clamped kvs n :
  as_int (from_option id (PInt TIMEOUT_DEFAULT) (dict_lookup "timeout" kvs)) = Some n ->
  exists t, effective_timeout (PDict kvs) = Ok t
    /\ as_int t = Some (Z.min n TIMEOUT_MAX)
    /\ (TIMEOUT_MAX < n -> t = PInt TIMEOUT_MAX)%Z
    /\ (Z.min n TIMEOUT_MAX <= TIMEOUT_MAX)%Z
    /\ (0 < n -> 0 < Z.min n TIMEOUT_MAX <= TIMEOUT_MAX)%Z
    /\ (dict_lookup "timeout" kvs = None -> t = PInt TIMEOUT_DEFAULT).
Proof.
  intros Hn. rewrite effective_timeout_dict.
  destruct (min_int_value _ _ Hn) as (t & Hmin & Hval & Hmax & Hkeep).
  exists t. repeat split; try done; try (unfold TIMEOUT_MAX; lia).
  intros Hnone. rewrite Hnone in Hn, Hkeep. simpl in *.
  apply Hkeep. simplify_eq. by unfold TIMEOUT_DEFAULT, TIMEOUT_MAX.
Qed.

Lemma effective_timeout_clamped_witness :
  exists t, effective_timeout (PDict [("code", PStr "x"); ("timeout", PInt 3600)]) = Ok t
    /\ as_int t = Some (Z.min 3600 TIMEOUT_MAX)
    /\ (TIMEOUT_MAX < 3600 -> t = PInt TIMEOUT_MAX)%Z
    /\ (Z.min 3600 TIMEOUT_MAX <= TIMEOUT_MAX)%Z
    /\ (0 < 3600 -> 0 < Z.min 3600 TIMEOUT_MAX <= TIMEOUT_MAX)%Z
    /\ (dict_lookup "timeout" [("code", PStr "x"); ("timeout", PInt 3600)] = None
        -> t = PInt TIMEOUT_DEFAULT).
Proof.
  apply (effective_timeout_clamped [("code", PStr "x"); ("timeout", PInt 3600)] 3600).
  reflexivity.
Defined.

End Timeout.

Section MissingCode.

Lemma object_lacks_code kvs :
  dict_lookup "code" kvs = None -> lacks_code (PDict kvs).
Proof.
  intros Hnone. right. simpl. rewrite Hnone.
  rewrite bool_decide_eq_false_2; [done|]. by intros [? ?].
Qed.

(** Whatever the body is, as long as it is not an object with a
    [code] member the view leaves the file system alone, also on the
    ways out on which the membership test or the subscript raise. *)
Lemma no_code_no_workspace e data fs :
  (forall code, getitem data "code" <> Ok code) ->
  (execute e data fs).2 = fs.
Proof.
  intros Hno. unfold execute. destruct (truthy data); [|done]. simpl.
  unfold mbind, M_bind, lift.
  destruct (contains "code" data) as [[|]|x]; try done. simpl.
  destruct (getitem data "code") as [code|x]; [|done]. by destruct (Hno code).
Qed.



End MissingCode.

(** ** The guarded part of the handler, case by case *)

Section Guarded.
Variables (e : env) (exec_dir : string) (code t : pyval).

Let body_of := guarded e exec_dir (script_path exec_dir) (wrapped_code exec_dir code) t.

Lemma guarded_write_fails w fs :
  write_error e = Some w ->
  body_of fs = (Raise (Error (failure_class w) (failure_text w)),
                failed_write w (script_path exec_dir) fs).
Proof.
  intros Hw. unfold body_of, guarded, mbind, M_bind, write_text. by rewrite Hw.
Qed.

Lemma guarded_timed_out fs out err :
  write_error e = None ->
  how (child_run e exec_dir code t fs) = TimedOut out err ->
  body_of fs = (Raise TimeoutExpired, fs_after (child_run e exec_dir code t fs)).
Proof.
  intros Hw Hrun. unfold body_of, guarded, mbind, M_bind, write_text, subprocess_run.
  rewrite Hw. fold (staged exec_dir code fs). fold (child_run e exec_dir code t fs).
  by rewrite Hrun.
Qed.

Lemma guarded_run_fails fs cls msg :
  write_error e = None ->
  how (child_run e exec_dir code t fs) = Failed cls msg ->
  body_of fs = (Raise (Error cls msg), fs_after (child_run e exec_dir code t fs)).
Proof.
  intros Hw Hrun. unfold body_of, guarded, mbind, M_bind, write_text, subprocess_run.
  rewrite Hw. fold (staged exec_dir code fs). fold (child_run e exec_dir code t fs).
  by rewrite Hrun.
Qed.

Lemma guarded_exited fs out err rc :
  write_error e = None ->
  how (child_run e exec_dir code t fs) = Exited out err rc ->
  body_of fs =
    match collect exec_dir (fs_after (child_run e exec_dir code t fs)) with
    | (Ok files, fs') =>
        (Ok (Response 200 (result_body out err rc files
                             (PInt (elapsed_ms (child_run e exec_dir code t fs))))), fs')
    | (Raise x, fs') => (Raise x, fs')
    end.
Proof.
  intros Hw Hrun. unfold body_of, guarded, mbind, M_bind, write_text, subprocess_run.
  rewrite Hw. fold (staged exec_dir code fs). fold (child_run e exec_dir code t fs).
  rewrite Hrun. by destruct (collect _ _) as [[?|?] ?].
Qed.

(** Whatever the guarded part does, it answers with status 200 if it
    answers at all. *)
Lemma guarded_status fs r fs' : body_of fs = (Ok r, fs') -> status r = 200%Z.
Proof.
  unfold body_of, guarded, mbind, M_bind, write_text, subprocess_run.
  destruct (write_error e); [done|].
  destruct (how _); try done.
  destruct (collect _ _) as [[?|?] ?]; [|done].
  by intros [= <- _].
Qed.

(** The teardown: it never raises, and it removes the tree unless
    the removal fails, in which case the error is dropped. *)
Lemma cleanup_spec fs :
  cleanup e exec_dir fs = (Ok (), after_cleanup e exec_dir fs).
Proof.
  unfold cleanup, swallow, rmtree, after_cleanup. by destruct (rmtree_error e).
Qed.

Lemma finally_cleanup {A} (m : M A) fs :
  finally m (cleanup e exec_dir) fs = ((m fs).1, after_cleanup e exec_dir (m fs).2).
Proof.
  unfold finally. destruct (m fs) as [r fs1]. by rewrite cleanup_spec.
Qed.

(** After the [except] clauses nothing is raised any more. *)
Lemma handlers_respond (m : M response) fs :
  (forall r fs', m fs = (Ok r, fs') -> status r = 200%Z) ->
  exists resp, (handlers t m fs).1 = Ok resp /\ (handlers t m fs).2 = (m fs).2
               /\ (status resp = 200 \/ status resp = 500)%Z.
Proof.
  intros Hok. unfold handlers. destruct (m fs) as [[r|[|cls msg]] fs'] eqn:Hm.
  - exists r. repeat split. left. by eapply Hok.
  - eexists. repeat split. by left.
  - eexists. repeat split. by right.
Qed.

End Guarded.

Section Outcomes.
Variables (e : env) (data code t : pyval) (fs : fsys) (exec_dir : string) (fs1 : fsys).
Hypothesis Hvalid : valid_request data code t.
Hypothesis Hmk : mkdtemp e TMP_DIR fs = (Ok exec_dir, fs1).

Let body_of := guarded e exec_dir (script_path exec_dir) (wrapped_code exec_dir code) t.

(** The view on a request that got its scratch directory. *)
Lemma execute_outcome :
  execute e data fs =
    ((handlers t body_of fs1).1, after_cleanup e exec_dir (handlers t body_of fs1).2).
Proof.
  rewrite (execute_staged _ _ _ _ _ _ _ Hvalid Hmk). apply finally_cleanup.
Qed.

Lemma execute_timed_out out err :
  write_error e = None ->
  how (child_run e exec_dir code t fs1) = TimedOut out err ->
  (execute e data fs).1 =
    Ok (Response 200 (result_body "" (timeout_message t) (-1) [] (mul_int t 1000))).
Proof.
  intros Hw Hrun. rewrite execute_outcome. unfold handlers, body_of.
  by rewrite (guarded_timed_out _ _ _ _ _ out err Hw Hrun).
Qed.

Lemma execute_exited out err rc files fs3 :
  write_error e = None ->
  how (child_run e exec_dir code t fs1) = Exited out err rc ->
  collect exec_dir (fs_after (child_run e exec_dir code t fs1)) = (Ok files, fs3) ->
  (execute e data fs).1 =
    Ok (Response 200 (result_body out err rc files
                        (PInt (elapsed_ms (child_run e exec_dir code t fs1))))).
Proof.
  intros Hw Hrun Hcol. rewrite execute_outcome. unfold handlers, body_of.
  by rewrite (guarded_exited _ _ _ _ _ out err rc Hw Hrun), Hcol.
Qed.

(** An exception other than the timeout that is raised inside the
    [try] becomes a response with status 500 and the sentinel body. *)
Lemma execute_internal_error cls msg fs2 :
  body_of fs1 = (Raise (Error cls msg), fs2) ->
  (execute e data fs).1 = Ok (Response 500 (result_body "" msg (-1) [] (PInt 0))).
Proof.
  intros Hbody. rewrite execute_outcome. unfold handlers. by rewrite Hbody.
Qed.

End Outcomes.

(** ** Strings and paths *)

Section Strings.

Lemma app_cons c s r : String c s +:+ r = String c (s +:+ r).
Proof. reflexivity. Qed.

Lemma app_empty_l s : "" +:+ s = s.
Proof. reflexivity. Qed.

Lemma app_assoc_str a b c : (a +:+ b) +:+ c = a +:+ (b +:+ c).
Proof. induction a as [|x a IH]; [done|]. rewrite !app_cons. by f_equal. Qed.

Lemma length_app_str a b : String.length (a +:+ b) = String.length a + String.length b.
Proof. induction a as [|x a IH]; [done|]. rewrite app_cons. simpl. by f_equal. Qed.

Lemma prefix_app p r : String.prefix p (p +:+ r) = true.
Proof.
  induction p as [|c p IH]; [by destruct r|].
  rewrite app_cons. simpl. by destruct (ascii_dec c c).
Qed.

Lemma drop_chars_app p r : drop_chars (String.length p) (p +:+ r) = r.
Proof. induction p as [|c p IH]; [by destruct r|]. by rewrite app_cons. Qed.

Lemma prefix_inv p s :
  String.prefix p s = true -> s = p +:+ drop_chars (String.length p) s.
Proof.
  revert s. induction p as [|c p IH]; intros s Hp; [by destruct s|].
  destruct s as [|d s]; [done|]. simpl in Hp.
  destruct (ascii_dec c d) as [->|]; [|done].
  rewrite app_cons. simpl. f_equal. by apply IH.
Qed.

Lemma is_infix_prefix x s : String.prefix x s = true -> is_infix x s = true.
Proof. intros Hp. destruct s; cbn [is_infix]; by rewrite Hp. Qed.

Lemma is_infix_app_r x a s : is_infix x s = true -> is_infix x (a +:+ s) = true.
Proof.
  intros Hs. induction a as [|c a IH]; [done|].
  rewrite app_cons. cbn [is_infix]. rewrite IH. by destruct (String.prefix _ _).
Qed.

(** A text occurs in whatever is built around it. *)
Lemma is_infix_middle x a b : is_infix x (a +:+ x +:+ b) = true.
Proof. apply is_infix_app_r, is_infix_prefix, prefix_app. Qed.

Lemma name_under_join d n : name_under d (path_join d n) = Some n.
Proof.
  unfold name_under, path_join. rewrite <- app_assoc_str, prefix_app.
  f_equal. replace (String.length d + 1) with (String.length (d +:+ "/")).
  - apply drop_chars_app.
  - by rewrite length_app_str.
Qed.

Lemma name_under_inv d p n : name_under d p = Some n -> p = path_join d n.
Proof.
  unfold name_under, path_join.
  destruct (String.prefix _ _) eqn:Hp; [|done]. intros [= <-].
  apply prefix_inv in Hp. rewrite length_app_str in Hp. simpl in Hp.
  by rewrite <- app_assoc_str.
Qed.

Lemma path_join_inj d : Inj (=) (=) (path_join d).
Proof. intros a b Hab. unfold path_join in Hab. by simplify_eq. Qed.

Lemma within_self d : within d d = true.
Proof. unfold within. by rewrite String.eqb_refl. Qed.

Lemma within_join d n : within d (path_join d n) = true.
Proof.
  unfold within, path_join. rewrite <- app_assoc_str, prefix_app.
  by destruct (String.eqb _ _).
Qed.

End Strings.

(** ** Allocation and removal of the scratch directory *)

Section Workspace.

Lemma mkdtemp_from_fresh e dir names : forall fs exec_dir fs1,
  mkdtemp_from e dir names fs = (Ok exec_dir, fs1) ->
  fs !! exec_dir = None /\ fs1 = <[exec_dir := Dir]> fs
  /\ exists n, exec_dir = path_join dir n /\ n ∈ names.
Proof.
  induction names as [|name rest IH]; intros fs exec_dir fs1 Hmk; [done|].
  cbn [mkdtemp_from] in Hmk. unfold mkdir in Hmk.
  destruct (open_at MAXSYMLINKS dir fs); try done.
  destruct (fs !! path_join dir name) as [taken|] eqn:Hfree.
  - destruct (IH _ _ _ Hmk) as (Hnone & Hfs1 & n & Hn & Hin).
    split; [done|]. split; [done|]. exists n. split; [done|by right].
  - destruct (mkdir_error e); [done|]. injection Hmk as <- <-.
    split; [done|]. split; [done|]. exists name. split; [done|by left].
Qed.

Lemma mkdtemp_fresh e dir fs exec_dir fs1 :
  mkdtemp e dir fs = (Ok exec_dir, fs1) ->
  fs !! exec_dir = None /\ fs1 = <[exec_dir := Dir]> fs
  /\ exists n, exec_dir = path_join dir n /\ n ∈ temp_names e.
Proof. apply mkdtemp_from_fresh. Qed.

Lemma remove_tree_within d p fs : within d p = true -> remove_tree d fs !! p = None.
Proof.
  intros Hin. unfold remove_tree. apply map_lookup_filter_None. right.
  intros x _. simpl. rewrite Hin. simpl. tauto.
Qed.

Lemma remove_tree_outside d p fs : within d p = false -> remove_tree d fs !! p = fs !! p.
Proof.
  intros Hout. unfold remove_tree. destruct (fs !! p) as [x|] eqn:Hp.
  - apply map_lookup_filter_Some. split; [done|]. simpl. by rewrite Hout.
  - apply map_lookup_filter_None. by left.
Qed.

End Workspace.

(** ** What the view answers *)

Section Responses.



(** A request that does not get its scratch directory: the exception
    of [mkdtemp] leaves the view, nothing is staged or removed. *)
Lemma execute_creation_fails e data code t fs x fs' :
  valid_request data code t ->
  mkdtemp e TMP_DIR fs = (Raise x, fs') ->
  execute e data fs = (Raise x, fs').
Proof.
  intros Hv Hmk. rewrite (execute_valid _ _ _ _ _ Hv).
  unfold mbind, M_bind. by rewrite Hmk.
Qed.

(** Once the scratch directory exists the view always answers, with
    status 200 or 500, and the teardown has run on what the guarded
    part left. *)
Lemma execute_responds e data code t fs exec_dir fs1 :
  valid_request data code t ->
  mkdtemp e TMP_DIR fs = (Ok exec_dir, fs1) ->
  exists resp fs2,
    execute e data fs = (Ok resp, after_cleanup e exec_dir fs2)
    /\ (status resp = 200 \/ status resp = 500)%Z.
Proof.
  intros Hv Hmk. rewrite (execute_outcome _ _ _ _ _ _ _ Hv Hmk).
  edestruct (handlers_respond t
               (guarded e exec_dir (script_path exec_dir) (wrapped_code exec_dir code) t)
               fs1) as (resp & Hresp & _ & Hstatus).
  { intros r fs'. apply guarded_status. }
  exists resp. eexists. by rewrite Hresp.
Qed.



(** C10: on a timeout the response has an empty list of files and an
    empty stdout, whatever the child had printed by then and whatever
    it had written, images in the scratch directory included. *)
Theorem timed_out_discards_output e data code t fs exec_dir fs1 out err :
  valid_request data code t ->
  mkdtemp e TMP_DIR fs = (Ok exec_dir, fs1) ->
  write_error e = None ->
  how (child_run e exec_dir code t fs1) = TimedOut out err ->
  exists resp, (execute e data fs).1 = Ok resp
    /\ field "files" resp = Some (PList [])
    /\ field "stdout" resp = Some (PStr "").
Proof.
  intros Hv Hmk Hw Hrun. eexists. split.
  - eapply execute_timed_out; eauto.
  - by split.
Qed.

Lemma timed_out_discards_output_witness :
  (how (child_run (Sample.env_of Sample.hangs) Sample.ws (PStr "import time")
          (PInt 30) (<[Sample.ws := Dir]> Sample.fs_ready)) = TimedOut "partial" ""
   /\ glob_png Sample.ws
        (fs_after (child_run (Sample.env_of Sample.hangs) Sample.ws (PStr "import time")
                     (PInt 30) (<[Sample.ws := Dir]> Sample.fs_ready)))
      = [path_join Sample.ws "plot.png"])
  /\ exists resp,
       (execute (Sample.env_of Sample.hangs) (Sample.request "import time")
          Sample.fs_ready).1 = Ok resp
       /\ field "files" resp = Some (PList [])
       /\ field "stdout" resp = Some (PStr "").
Proof.
  split; [split; vm_compute; reflexivity|].
  apply (timed_out_discards_output (Sample.env_of Sample.hangs)
           (Sample.request "import time") (PStr "import time") (PInt 30)
           Sample.fs_ready Sample.ws (<[Sample.ws := Dir]> Sample.fs_ready) "partial" "").
  - eexists. split; [reflexivity|]. split; reflexivity.
  - reflexivity.
  - reflexivity.
  - reflexivity.
Defined.

End Responses.

Section InternalErrors.

(** Every exception other than the timeout that the guarded part can
    raise is answered with status 500 and the sentinel body: a
    failed write of the script, a failed start of the child, a failed
    read of an image. *)
Lemma guarded_errors_reported e data code t fs exec_dir fs1 :
  valid_request data code t ->
  mkdtemp e TMP_DIR fs = (Ok exec_dir, fs1) ->
  forall cls msg fs2,
    guarded e exec_dir (script_path exec_dir) (wrapped_code exec_dir code) t fs1
      = (Raise (Error cls msg), fs2) ->
    (execute e data fs).1 = Ok (Response 500 (result_body "" msg (-1) [] (PInt 0)))
    /\ (execute e data fs).2 = after_cleanup e exec_dir fs2.
Proof.
  intros Hv Hmk cls msg fs2 Hbody.
  rewrite (execute_outcome _ _ _ _ _ _ _ Hv Hmk). unfold handlers.
  by rewrite Hbody.
Qed.

(** C5, the failing input: the scratch root is missing, so [mkdtemp]
    raises before the [try] is entered; the exception leaves the view
    and the view builds no response of its own. *)
Theorem creation_failure_leaves_view :
  execute (Sample.env_of (Sample.prints 0)) (Sample.request "print(1)") ∅
  = (Raise (Error "FileNotFoundError"
              ("[Errno 2] No such file or directory: '/tmp/sandbox/tmpk3v9qz_x'")), ∅).
Proof. vm_compute. reflexivity. Qed.

End InternalErrors.

Section Teardown.




End Teardown.

Section ExitCodes.




End ExitCodes.

Section CodeField.

(** C7 as stated fails: the empty string is accepted as code; the
    program is staged and run, and the answer has status 200. *)
Lemma empty_code_is_run :
  (execute (Sample.env_of (Sample.prints 0)) (Sample.request "") Sample.fs_ready).1 =
    Ok (Response 200 (result_body ("hello" +:+ newline) "" 0 [] (PInt 41))).
Proof. vm_compute. reflexivity. Qed.

(** C7, amended: the [code] member only has to be present.  Whatever
    its value, the empty string and values that are not strings
    included, the request is never answered with the validation
    error: a response of the view has status 200 or 500.  The text of
    the value is staged and run like any other program. *)
Theorem present_code_is_run e kvs code fs :
  dict_lookup "code" kvs = Some code ->
  (forall resp, (execute e (PDict kvs) fs).1 = Ok resp ->
                (status resp = 200 \/ status resp = 500)%Z)
  /\ (forall t exec_dir fs1 out err rc files fs3,
        effective_timeout (PDict kvs) = Ok t ->
        mkdtemp e TMP_DIR fs = (Ok exec_dir, fs1) ->
        write_error e = None ->
        staged exec_dir code fs1 !! script_path exec_dir =
          Some (File (String.list_byte_of_string (render exec_dir (str code) template)))
        /\ (how (child_run e exec_dir code t fs1) = Exited out err rc ->
            collect exec_dir (fs_after (child_run e exec_dir code t fs1)) = (Ok files, fs3) ->
            (execute e (PDict kvs) fs).1 =
              Ok (Response 200 (result_body out err rc files
                                  (PInt (elapsed_ms (child_run e exec_dir code t fs1))))))).
Proof.
  intros Hcode. split.
  - intros resp Hresp.
    destruct (effective_timeout (PDict kvs)) as [t|x] eqn:Ht.
    + assert (valid_request (PDict kvs) code t) as Hv by (by exists kvs).
      destruct (mkdtemp e TMP_DIR fs) as [[exec_dir|x] fs1] eqn:Hmk.
      * destruct (execute_responds _ _ _ _ _ _ _ Hv Hmk) as (r & fs2 & Hex & Hst).
        rewrite Hex in Hresp. by simplify_eq/=.
      * by rewrite (execute_creation_fails _ _ _ _ _ _ _ Hv Hmk) in Hresp.
    + unfold execute in Hresp. rewrite (dict_lookup_truthy _ _ _ Hcode) in Hresp.
      simpl in Hresp. unfold mbind, M_bind, lift in Hresp. simpl in Hresp.
      rewrite Hcode in Hresp. rewrite bool_decide_eq_true_2 in Hresp by done.
      simpl in Hresp. fold (effective_timeout (PDict kvs)) in Hresp.
      by rewrite Ht in Hresp.
  - intros t exec_dir fs1 out err rc files fs3 Ht Hmk Hw. split.
    + unfold staged. by rewrite lookup_insert_eq.
    + intros Hrun Hcol. eapply execute_exited; eauto. by exists kvs.
Qed.

Lemma present_code_is_run_witness :
  (forall resp,
      (execute (Sample.env_of (Sample.prints 0)) (PDict [("code", PStr "")])
         Sample.fs_ready).1 = Ok resp ->
      (status resp = 200 \/ status resp = 500)%Z)
  /\ (forall t exec_dir fs1 out err rc files fs3,
        effective_timeout (PDict [("code", PStr "")]) = Ok t ->
        mkdtemp (Sample.env_of (Sample.prints 0)) TMP_DIR Sample.fs_ready
          = (Ok exec_dir, fs1) ->
        write_error (Sample.env_of (Sample.prints 0)) = None ->
        staged exec_dir (PStr "") fs1 !! script_path exec_dir =
          Some (File (String.list_byte_of_string (render exec_dir (str (PStr "")) template)))
        /\ (how (child_run (Sample.env_of (Sample.prints 0)) exec_dir (PStr "") t fs1)
              = Exited out err rc ->
            collect exec_dir
              (fs_after (child_run (Sample.env_of (Sample.prints 0)) exec_dir (PStr "") t fs1))
              = (Ok files, fs3) ->
            (execute (Sample.env_of (Sample.prints 0)) (PDict [("code", PStr "")])
               Sample.fs_ready).1 =
              Ok (Response 200
                    (result_body out err rc files
                       (PInt (elapsed_ms (child_run (Sample.env_of (Sample.prints 0))
                                            exec_dir (PStr "") t fs1))))))).
Proof.
  apply (present_code_is_run (Sample.env_of (Sample.prints 0)) [("code", PStr "")]
           (PStr "") Sample.fs_ready).
  reflexivity.
Defined.

End CodeField.

(** ** The listing of images *)

Section Glob.

Lemma compare_app p a b : String.compare (p +:+ a) (p +:+ b) = String.compare a b.
Proof.
  induction p as [|c p IH]; [done|]. rewrite !app_cons. simpl.
  unfold Ascii.compare. by rewrite N.compare_refl.
Qed.

(** A common directory in front does not change the order. *)
Lemma le_path_join d a b : String.le (path_join d a) (path_join d b) <-> String.le a b.
Proof.
  unfold String.le, String.leb, path_join.
  by rewrite <- !app_assoc_str, compare_app.
Qed.

Lemma basename_no_slash n : has_slash n = false -> basename n = n.
Proof. intros Hn. destruct n; [done|]. cbn [basename]. by rewrite Hn. Qed.

Lemma has_slash_join d n : has_slash (d +:+ "/" +:+ n) = true.
Proof. apply is_infix_middle. Qed.

Lemma basename_join d n : has_slash n = false -> basename (path_join d n) = n.
Proof.
  intros Hn. unfold path_join. induction d as [|c d IH].
  - rewrite app_empty_l. change ("/" +:+ n) with (String "/" n).
    cbn [basename]. replace (has_slash (String "/" n)) with true.
    + by apply basename_no_slash.
    + symmetry. apply (has_slash_join "" n).
  - rewrite app_cons. cbn [basename].
    rewrite <- app_cons, has_slash_join. by rewrite IH.
Qed.

Lemma is_png_of_inv d p :
  is_png_of d p = true ->
  exists n, p = path_join d n /\ has_slash n = false /\ matches_png n = true.
Proof.
  unfold is_png_of. destruct (name_under d p) as [n|] eqn:Hn; [|done].
  intros [Hs Hm]%andb_true_iff. apply negb_true_iff in Hs.
  exists n. split; [by apply name_under_inv|done].
Qed.

Lemma is_png_of_join d n :
  is_png_of d (path_join d n) = negb (has_slash n) && matches_png n.
Proof. unfold is_png_of. by rewrite name_under_join. Qed.

Lemma elem_of_glob_png d fs p :
  p ∈ glob_png d fs <-> is_Some (fs !! p) /\ is_png_of d p = true.
Proof.
  unfold glob_png. rewrite list_elem_of_In, filter_In, <- list_elem_of_In.
  rewrite list_elem_of_fmap. split.
  - intros [([k x] & -> & Hkx%elem_of_map_to_list) Hpng]. eauto.
  - intros [[x Hx] Hpng]. split; [|done]. exists (p, x). split; [done|].
    by apply elem_of_map_to_list.
Qed.

Lemma NoDup_glob_png d fs : NoDup (glob_png d fs).
Proof.
  apply NoDup_ListNoDup, List.NoDup_filter, NoDup_ListNoDup, NoDup_fst_map_to_list.
Qed.

Lemma sorted_perm l : sorted l ≡ₚ l.
Proof. apply merge_sort_Permutation. Qed.

Lemma sorted_sorted l : StronglySorted String.le (sorted l).
Proof. apply (StronglySorted_merge_sort _). Qed.

(** A sorted list without repetitions is determined by its elements. *)
Lemma sorted_unique l k :
  l ≡ₚ k -> StronglySorted String.le k -> sorted l = k.
Proof.
  intros Hperm Hk. apply (StronglySorted_unique String.le).
  - apply sorted_sorted.
  - done.
  - by rewrite sorted_perm.
Qed.

Lemma StronglySorted_map {A B} (R : relation A) (S : relation B) (f : A -> B) l :
  (forall x y, x ∈ l -> y ∈ l -> R x y -> S (f x) (f y)) ->
  StronglySorted R l -> StronglySorted S (map f l).
Proof.
  intros Hf Hl. induction Hl as [|x l Hl IH Hx]; [constructor|].
  simpl. constructor.
  - apply IH. intros a b Ha Hb. apply Hf; by right.
  - apply Forall_forall. intros y [a [-> Ha]]%list_elem_of_fmap.
    apply Hf; [by left|by right|]. rewrite Forall_forall in Hx. by apply Hx.
Qed.

(** The order is that of the characters, not of the numbers in the
    names: an eleventh figure comes before the third. *)
Remark sorted_is_not_numeric :
  sorted ["figure_2.png"; "figure_10.png"] = ["figure_10.png"; "figure_2.png"].
Proof. reflexivity. Qed.


End Glob.

(** ** Base64 payloads decode to the bytes they were made from *)

Section Base64RoundTrip.

Lemma digit_at_sextet n k : digit_at n k = digit (sextet n k).
Proof. reflexivity. Qed.

Lemma sextet_div n k : sextet n k = ((n / 2 ^ (6 * k)) mod 64)%N.
Proof.
  unfold sextet. rewrite N.shiftr_div_pow2.
  change 63%N with (N.ones 6). by rewrite N.land_ones.
Qed.

Lemma sextet_lt n k : (sextet n k < 64)%N.
Proof. rewrite sextet_div. by apply N.mod_lt. Qed.

Lemma value_digit n : (n < 64)%N -> value (digit n) = Some n.
Proof.
  intros Hn.
  assert (forall k : nat, k < 64 -> value (digit (N.of_nat k)) = Some (N.of_nat k)) as Hall.
  { intros k Hk. do 64 (destruct k as [|k]; [reflexivity|]). lia. }
  rewrite <- (N2Nat.id n). apply Hall. lia.
Qed.

Lemma digit_not_pad n : (n < 64)%N -> Ascii.eqb (digit n) pad = false.
Proof.
  intros Hn.
  assert (forall k : nat, k < 64 -> Ascii.eqb (digit (N.of_nat k)) pad = false) as Hall.
  { intros k Hk. do 64 (destruct k as [|k]; [reflexivity|]). lia. }
  rewrite <- (N2Nat.id n). apply Hall. lia.
Qed.

Lemma byte_at_div n k : byte_at n k = Byte.of_N ((n / 2 ^ (8 * k)) mod 256)%N.
Proof.
  unfold byte_at. rewrite N.shiftr_div_pow2.
  change 255%N with (N.ones 8). by rewrite N.land_ones.
Qed.

Lemma group_bounds a b c :
  (Byte.to_N a < 256 /\ Byte.to_N b < 256 /\ Byte.to_N c < 256)%N.
Proof.
  pose proof (Byte.to_N_bounded a). pose proof (Byte.to_N_bounded b).
  pose proof (Byte.to_N_bounded c). lia.
Qed.

Local Ltac euclid :=
  zify; Z.to_euclidean_division_equations; lia.

(** The four digits of a group put the group together again. *)
Lemma ungroup_sextets a b c :
  let n := group a b c in
  ungroup (sextet n 3) (sextet n 2) (sextet n 1) (sextet n 0) = n.
Proof.
  intros n. destruct (group_bounds a b c) as (Ha & Hb & Hc).
  assert (n < 16777216)%N as Hn by (unfold n, group; lia).
  rewrite !sextet_div. unfold ungroup.
  change (2 ^ (6 * 3))%N with 262144%N. change (2 ^ (6 * 2))%N with 4096%N.
  change (2 ^ (6 * 1))%N with 64%N. change (2 ^ (6 * 0))%N with 1%N.
  clearbody n. clear Ha Hb Hc. euclid.
Qed.

Lemma sextet_low_two a b : sextet (group a b x00) 0 = 0%N.
Proof.
  rewrite sextet_div. unfold group. change (Byte.to_N x00) with 0%N.
  change (2 ^ (6 * 0))%N with 1%N. euclid.
Qed.

Lemma sextet_low_one a k : (k < 2)%N -> sextet (group a x00 x00) k = 0%N.
Proof.
  intros Hk. rewrite sextet_div. unfold group. change (Byte.to_N x00) with 0%N.
  assert (k = 0 \/ k = 1)%N as [-> | ->] by lia.
  - change (2 ^ (6 * 0))%N with 1%N. euclid.
  - change (2 ^ (6 * 1))%N with 64%N. euclid.
Qed.

Lemma byte_at_group a b c :
  byte_at (group a b c) 2 = Some a
  /\ byte_at (group a b c) 1 = Some b
  /\ byte_at (group a b c) 0 = Some c.
Proof.
  destruct (group_bounds a b c) as (Ha & Hb & Hc).
  rewrite !byte_at_div.
  change (2 ^ (8 * 2))%N with 65536%N. change (2 ^ (8 * 1))%N with 256%N.
  change (2 ^ (8 * 0))%N with 1%N.
  unfold group. split; [|split].
  - rewrite <- (Byte.of_to_N a). f_equal. euclid.
  - rewrite <- (Byte.of_to_N b). f_equal. euclid.
  - rewrite <- (Byte.of_to_N c). f_equal. euclid.
Qed.

Lemma list_ind3 {A} (P : list A -> Prop) :
  P [] -> (forall a, P [a]) -> (forall a b, P [a; b]) ->
  (forall a b c rest, P rest -> P (a :: b :: c :: rest)) ->
  forall l, P l.
Proof.
  intros H0 H1 H2 H3.
  assert (forall l, P l /\ (forall a, P (a :: l)) /\ (forall a b, P (a :: b :: l))) as Hall.
  { induction l as [|x l (IH0 & IH1 & IH2)]; [by auto|].
    split; [apply IH1|]. split; [intros a; apply IH2|]. intros a b. by apply H3. }
  intros l. apply Hall.
Qed.

Lemma b64decode_b64encode bs : b64decode (b64encode bs) = Some bs.
Proof.
  induction bs as [|a|a b|a b c rest IH] using list_ind3; [done| | |].
  - cbn [b64encode b64decode]. rewrite !digit_at_sextet.
    rewrite !value_digit by apply sextet_lt. cbn [mbind option_bind].
    rewrite Ascii.eqb_refl. cbn [andb String.eqb].
    replace (ungroup _ _ 0 0) with (group a x00 x00).
    + destruct (byte_at_group a x00 x00) as (-> & _). done.
    + rewrite <- (ungroup_sextets a x00 x00) at 1. cbv zeta.
      by rewrite (sextet_low_one a 1), (sextet_low_one a 0) by lia.
  - cbn [b64encode b64decode]. rewrite !digit_at_sextet.
    rewrite !value_digit by apply sextet_lt. cbn [mbind option_bind].
    rewrite digit_not_pad by apply sextet_lt. rewrite Ascii.eqb_refl.
    cbn [mbind option_bind String.eqb].
    replace (ungroup _ _ _ 0) with (group a b x00).
    + destruct (byte_at_group a b x00) as (-> & -> & _). done.
    + rewrite <- (ungroup_sextets a b x00) at 1. cbv zeta.
      by rewrite sextet_low_two.
  - cbn [b64encode b64decode]. rewrite !digit_at_sextet.
    rewrite !value_digit by apply sextet_lt. cbn [mbind option_bind].
    rewrite !digit_not_pad by apply sextet_lt. cbn [mbind option_bind].
    pose proof (ungroup_sextets a b c) as Hn. cbv zeta in Hn. rewrite Hn.
    destruct (byte_at_group a b c) as (-> & -> & ->). cbn [mbind option_bind].
    by rewrite IH.
Qed.

End Base64RoundTrip.

(** ** The collection of images *)

Section Collect.

Lemma open_at_file hops (fs : fsys) p data :
  fs !! p = Some (File data) -> open_at hops p fs = Bytes data.
Proof. intros Hp. destruct hops; simpl; by rewrite Hp. Qed.


Lemma open_at_some hops (fs : fsys) p data :
  open_at hops p fs = Bytes data -> is_Some (fs !! p).
Proof. destruct hops; simpl; destruct (fs !! p); by eauto. Qed.

Lemma read_bytes_ok (fs : fsys) p data :
  open_at MAXSYMLINKS p fs = Bytes data -> read_bytes p fs = (Ok data, fs).
Proof. intros Hp. unfold read_bytes. by rewrite Hp. Qed.

Lemma read_bytes_inv (fs : fsys) p data fs' :
  read_bytes p fs = (Ok data, fs') -> fs' = fs /\ open_at MAXSYMLINKS p fs = Bytes data.
Proof.
  unfold read_bytes. destruct (open_at MAXSYMLINKS p fs); try done.
  by intros [= <- <-].
Qed.

Lemma read_images_open paths : forall acc fs,
  (forall p, p ∈ paths -> exists data, open_at MAXSYMLINKS p fs = Bytes data) ->
  read_images paths acc fs = (Ok (acc ++ map (entry_of fs) paths), fs).
Proof.
  induction paths as [|p paths IH]; intros acc fs Hfiles.
  - simpl. by rewrite app_nil_r.
  - destruct (Hfiles p) as [data Hp]; [by left|].
    cbn [read_images]. unfold mbind, M_bind. rewrite (read_bytes_ok _ _ _ Hp).
    rewrite IH by (intros q Hq; apply Hfiles; by right).
    rewrite <- app_assoc. simpl.
    replace (entry_of fs p) with (file_entry p data); [done|].
    unfold entry_of, file_data. by rewrite Hp.
Qed.

Lemma read_images_ok paths : forall acc fs,
  (forall p, p ∈ paths -> exists data, fs !! p = Some (File data)) ->
  read_images paths acc fs = (Ok (acc ++ map (entry_of fs) paths), fs).
Proof.
  intros acc fs Hfiles. apply read_images_open. intros p Hp.
  destruct (Hfiles p Hp) as [data Hdata]. exists data. by apply open_at_file.
Qed.

Lemma read_images_inv paths : forall acc fs files fs',
  read_images paths acc fs = (Ok files, fs') ->
  fs' = fs
  /\ (forall p, p ∈ paths -> exists data, open_at MAXSYMLINKS p fs = Bytes data)
  /\ files = acc ++ map (entry_of fs) paths.
Proof.
  induction paths as [|p paths IH]; intros acc fs files fs' Hread.
  - simpl in Hread. injection Hread as <- <-. rewrite app_nil_r.
    split; [done|]. split; [|done]. by intros p Hp%elem_of_nil.
  - cbn [read_images] in Hread. unfold mbind, M_bind in Hread.
    destruct (read_bytes p fs) as [[data|?] fs1] eqn:Hp; [|done].
    apply read_bytes_inv in Hp as [-> Hp].
    apply IH in Hread as (-> & Hfiles & ->). split; [done|]. split.
    + intros q [->|Hq]%elem_of_cons; eauto.
    + rewrite <- app_assoc. simpl.
      replace (entry_of fs p) with (file_entry p data); [done|].
      unfold entry_of, file_data. by rewrite Hp.
Qed.

Lemma collect_inv d fs files fs' :
  collect d fs = (Ok files, fs') ->
  fs' = fs
  /\ (forall p, p ∈ glob_png d fs -> exists data, open_at MAXSYMLINKS p fs = Bytes data)
  /\ files = map (entry_of fs) (sorted (glob_png d fs)).
Proof.
  unfold collect. intros (-> & Hfiles & ->)%read_images_inv.
  split; [done|]. split; [|done].
  intros p Hp. apply Hfiles. by rewrite sorted_perm.
Qed.

Lemma collect_open d fs :
  (forall p, p ∈ glob_png d fs -> exists data, open_at MAXSYMLINKS p fs = Bytes data) ->
  collect d fs = (Ok (map (entry_of fs) (sorted (glob_png d fs))), fs).
Proof.
  intros Hfiles. unfold collect. rewrite read_images_open; [done|].
  intros p Hp. apply Hfiles. by rewrite <- (sorted_perm (glob_png d fs)).
Qed.

Lemma collect_ok d fs :
  (forall p, p ∈ glob_png d fs -> exists data, fs !! p = Some (File data)) ->
  collect d fs = (Ok (map (entry_of fs) (sorted (glob_png d fs))), fs).
Proof.
  intros Hfiles. apply collect_open. intros p Hp.
  destruct (Hfiles p Hp) as [data Hdata]. exists data. by apply open_at_file.
Qed.

Lemma entry_name_entry_of fs p : entry_name (entry_of fs p) = basename p.
Proof. reflexivity. Qed.

Lemma entry_of_open d fs n data :
  has_slash n = false ->
  open_at MAXSYMLINKS (path_join d n) fs = Bytes data ->
  entry_of fs (path_join d n) = image_entry n data.
Proof.
  intros Hn Hp. unfold entry_of, file_entry, file_data, image_entry.
  by rewrite Hp, basename_join.
Qed.

Lemma entry_of_join d fs n data :
  has_slash n = false ->
  fs !! path_join d n = Some (File data) ->
  entry_of fs (path_join d n) = image_entry n data.
Proof. intros Hn Hp. apply entry_of_open; [done|]. by apply open_at_file. Qed.



(** What is in the list of a successful collection: an entry for
    every name directly in the directory that matches, with the bytes
    that [open] reads there. *)
Lemma collected_entries d fs entry :
  (forall p, p ∈ glob_png d fs -> exists data, open_at MAXSYMLINKS p fs = Bytes data) ->
  entry ∈ map (entry_of fs) (sorted (glob_png d fs)) <->
  exists n data, open_at MAXSYMLINKS (path_join d n) fs = Bytes data
                 /\ has_slash n = false /\ matches_png n = true
                 /\ entry = image_entry n data.
Proof.
  intros Hfiles. rewrite list_elem_of_fmap. split.
  - intros (p & -> & Hp). rewrite sorted_perm in Hp.
    destruct (Hfiles p Hp) as [data Hdata].
    apply elem_of_glob_png in Hp as [_ (n & -> & Hn & Hm)%is_png_of_inv].
    exists n, data. by rewrite (entry_of_open _ _ _ data).
  - intros (n & data & Hdata & Hn & Hm & ->). exists (path_join d n). split.
    + by rewrite (entry_of_open _ _ _ data).
    + rewrite sorted_perm. apply elem_of_glob_png.
      split; [by eapply open_at_some|].
      by rewrite is_png_of_join, Hn, Hm.
Qed.

End Collect.

(** ** The export loop *)

Section ExportLoop.

Lemma app_inj_r a b s : a +:+ s = b +:+ s -> a = b.
Proof.
  intros Heq.
  assert (String.length a = String.length b) as Hlen.
  { apply (f_equal String.length) in Heq. rewrite !length_app_str in Heq. lia. }
  revert b Heq Hlen. induction a as [|c a IH]; intros [|c' b] Heq Hlen; try done.
  rewrite !app_cons in Heq. injection Heq as -> Heq. f_equal.
  apply IH; [done|]. simpl in Hlen. lia.
Qed.

(** Different positions give different file names. *)
Lemma figure_name_inj : Inj (=) (=) figure_name.
Proof.
  intros i j Hij. unfold figure_name in Hij.
  apply (inj (String.app "figure_")) in Hij.
  apply app_inj_r in Hij. by apply (inj pretty) in Hij.
Qed.

Lemma elem_of_get_fignums (reg : registry) k : k ∈ get_fignums reg <-> is_Some (reg !! k).
Proof.
  unfold get_fignums. rewrite merge_sort_Permutation, list_elem_of_fmap. split.
  - intros ([k' fig] & -> & Hk%elem_of_map_to_list). by eexists.
  - intros [fig Hk]. exists (k, fig). split; [done|]. by apply elem_of_map_to_list.
Qed.

Lemma NoDup_get_fignums (reg : registry) : NoDup (get_fignums reg).
Proof.
  unfold get_fignums. rewrite merge_sort_Permutation. apply NoDup_fst_map_to_list.
Qed.

Lemma get_fignums_sorted (reg : registry) : StronglySorted Z.le (get_fignums reg).
Proof. apply (StronglySorted_merge_sort _). Qed.

(** The loop over a list of distinct numbers of open figures, from
    counter [i]: the figures of the list are closed, the [j]-th of
    them is written to the file numbered [i + j] at 150 dpi, and no
    other path is touched. *)
Lemma export_spec blank d nums : forall i (reg : registry) (fs : fsys),
  NoDup nums ->
  (forall k, k ∈ nums -> is_Some (reg !! k)) ->
  (forall k, (export blank d i nums reg fs).1 !! k
             = if decide (k ∈ nums) then None else reg !! k)
  /\ (forall j k (fig : figure), nums !! j = Some k -> reg !! k = Some fig ->
        (export blank d i nums reg fs).2 !! path_join d (figure_name (i + j))
        = Some (File (fig 150%Z)))
  /\ (forall p, (forall j, j < length nums -> p <> path_join d (figure_name (i + j))) ->
        (export blank d i nums reg fs).2 !! p = fs !! p).
Proof.
  induction nums as [|k0 nums IH]; intros i reg fs Hnd Hopen.
  { split; [|split].
    - intros k. by rewrite decide_False by apply not_elem_of_nil.
    - by intros j k fig Hj.
    - done. }
  apply NoDup_cons in Hnd as [Hk0 Hnd].
  destruct (Hopen k0) as [fig0 Hfig0]; [by left|].
  cbn [export]. unfold plt_figure. rewrite Hfig0.
  destruct (IH (S i) (delete k0 reg)
              (<[path_join d (figure_name i) := File (fig0 150%Z)]> fs) Hnd)
    as (Hreg & Hsaved & Hother).
  { intros k Hk. rewrite lookup_delete_ne by (by intros ->). apply Hopen. by right. }
  split; [|split].
  - intros k. rewrite Hreg. destruct (decide (k = k0)) as [->|Hne].
    + rewrite decide_False by done. rewrite lookup_delete_eq.
      by rewrite decide_True by (by left).
    + rewrite lookup_delete_ne by done.
      destruct (decide (k ∈ nums)) as [Hin|Hnin].
      * by rewrite decide_True by (by right).
      * rewrite decide_False; [done|]. by intros [?|?]%elem_of_cons.
  - intros [|j] k fig Hj Hfig.
    + simpl in Hj. simplify_eq. rewrite Hother.
      * rewrite Nat.add_0_r. apply lookup_insert_eq.
      * intros j Hj Heq. apply path_join_inj, figure_name_inj in Heq. lia.
    + simpl in Hj. replace (i + S j) with (S i + j) by lia.
      apply (Hsaved j k fig Hj). rewrite lookup_delete_ne; [done|].
      intros ->. apply Hk0. by eapply list_elem_of_lookup_2.
  - intros p Hp. rewrite Hother.
    + apply lookup_insert_ne. intros Heq. apply (Hp 0); [simpl; lia|].
      by rewrite Nat.add_0_r.
    + intros j Hj. replace (S i + j) with (i + S j) by lia. apply Hp. simpl. lia.
Qed.

(** The whole loop: every open figure is saved, in the order of the
    figure numbers, to its own numbered file and is closed. *)
Lemma autosave_spec blank d (reg : registry) (fs : fsys) :
  (autosave blank d reg fs).1 = ∅
  /\ (forall i k (fig : figure), get_fignums reg !! i = Some k -> reg !! k = Some fig ->
        (autosave blank d reg fs).2 !! path_join d (figure_name i)
        = Some (File (fig 150%Z)))
  /\ (forall p, (forall i, i < length (get_fignums reg) ->
                           p <> path_join d (figure_name i)) ->
        (autosave blank d reg fs).2 !! p = fs !! p).
Proof.
  unfold autosave.
  destruct (export_spec blank d (get_fignums reg) 0 reg fs (NoDup_get_fignums reg))
    as (Hreg & Hsaved & Hother).
  { intros k. apply elem_of_get_fignums. }
  split; [|split].
  - apply map_eq. intros k. rewrite Hreg, lookup_empty.
    destruct (decide (k ∈ get_fignums reg)) as [|Hnin]; [done|].
    rewrite elem_of_get_fignums in Hnin. by apply eq_None_not_Some.
  - intros i k fig. apply Hsaved.
  - intros p Hp. by apply Hother.
Qed.

End ExportLoop.

(** ** Figure numbers and the order of creation *)

Section Numbering.

Lemma foldr_max_ge l : forall k j, j ∈ k :: l -> (j <= foldr Z.max k l)%Z.
Proof.
  induction l as [|x l IH]; intros k j Hj.
  - apply list_elem_of_singleton in Hj. subst j. simpl. lia.
  - simpl. apply elem_of_cons in Hj as [Hj|Hj].
    + subst j. specialize (IH k k (list_elem_of_here _ _)). lia.
    + apply elem_of_cons in Hj as [Hj|Hj]; [subst j; lia|].
      specialize (IH k j (list_elem_of_further _ _ _ Hj)). lia.
Qed.

(** The next number is above every number in use. *)
Lemma next_num_above (reg : registry) j : j ∈ get_fignums reg -> (j < next_num reg)%Z.
Proof.
  unfold next_num. destruct (get_fignums reg) as [|k rest]; [by intros ?%elem_of_nil|].
  intros Hj%foldr_max_ge. lia.
Qed.

Lemma next_num_free (reg : registry) : reg !! next_num reg = None.
Proof.
  apply eq_None_not_Some. intros Hsome%elem_of_get_fignums%next_num_above. lia.
Qed.

Lemma get_fignums_unique (reg : registry) l :
  l ≡ₚ map fst (map_to_list reg) -> StronglySorted Z.le l -> get_fignums reg = l.
Proof.
  intros Hperm Hsorted. apply (StronglySorted_unique Z.le).
  - apply get_fignums_sorted.
  - done.
  - unfold get_fignums. by rewrite merge_sort_Permutation.
Qed.

(** A figure with a number above all others goes to the end of the
    list of numbers. *)
Lemma get_fignums_insert_above (reg : registry) k (fig : figure) :
  (forall j, j ∈ get_fignums reg -> (j < k)%Z) ->
  get_fignums (<[k := fig]> reg) = get_fignums reg ++ [k].
Proof.
  intros Habove.
  assert (reg !! k = None) as Hfree.
  { apply eq_None_not_Some. intros Hsome%elem_of_get_fignums%Habove. lia. }
  apply get_fignums_unique.
  - rewrite map_to_list_insert by done. simpl.
    rewrite <- Permutation_cons_append. constructor.
    unfold get_fignums. by rewrite merge_sort_Permutation.
  - apply StronglySorted_app_2.
    + intros j k' Hj ->%list_elem_of_singleton. apply Habove in Hj. lia.
    + apply get_fignums_sorted.
    + repeat constructor.
Qed.

Lemma created_snoc steps num (fig : figure) :
  created (steps ++ [(num, fig)]) = new_figure num fig (created steps).
Proof. unfold created. by rewrite foldl_app. Qed.

(** When the program leaves the numbering to pyplot, the list of
    figure numbers is the list of the figures in the order in which
    they were created. *)
Lemma created_auto_order figs :
  Forall2 (fun k (fig : figure) => created_auto figs !! k = Some fig)
          (get_fignums (created_auto figs)) figs.
Proof.
  induction figs as [|fig figs IH] using rev_ind.
  - unfold created_auto, created. simpl.
    replace (get_fignums ∅) with (@nil Z); [constructor|].
    symmetry. apply get_fignums_unique; [|constructor].
    by rewrite map_to_list_empty.
  - unfold created_auto in *. rewrite map_app. simpl map.
    rewrite created_snoc. unfold new_figure. simpl.
    set (reg := created (map (fun fig0 : figure => (None, fig0)) figs)) in *.
    rewrite get_fignums_insert_above by apply next_num_above.
    apply Forall2_app.
    + eapply Forall2_impl; [exact IH|]. intros k f Hk. simpl in Hk.
      rewrite lookup_insert_ne; [done|].
      intros <-. by rewrite next_num_free in Hk.
    + constructor; [|constructor]. apply lookup_insert_eq.
Qed.


Lemma created_auto_length figs : length (get_fignums (created_auto figs)) = length figs.
Proof. by eapply Forall2_length, created_auto_order. Qed.


End Numbering.

(** ** The staged program *)

Section Template.







End Template.

Section StagedProgram.



End StagedProgram.

Section Artifacts.




End Artifacts.

Section Collected.




End Collected.

(** * Further properties of the view *)

(** ** Failures inside the guarded part *)

Section GuardedFailures.

Lemma mkdtemp_from_child_free e e' dir names fs :
  mkdir_error e' = mkdir_error e ->
  mkdtemp_from e' dir names fs = mkdtemp_from e dir names fs.
Proof.
  intros Hmk. induction names as [|name rest IH]; [done|].
  cbn [mkdtemp_from]. unfold mkdir. rewrite Hmk, IH. done.
Qed.

(** When the script cannot be written the view answers with status
    500 and the text of the error.  The teardown then runs on the
    scratch directory as the failed write left it: as [mkdtemp] made
    it when [open] itself failed, and with the script file and the
    part that had reached it when the failure came after [open].  The
    child plays no part: any environment that differs in the child
    alone gives the same outcome. *)
Theorem write_failure_reported e data code t fs exec_dir fs1 w :
  valid_request data code t ->
  mkdtemp e TMP_DIR fs = (Ok exec_dir, fs1) ->
  write_error e = Some w ->
  execute e data fs =
    (Ok (Response 500 (result_body "" (failure_text w) (-1) [] (PInt 0))),
     after_cleanup e exec_dir (failed_write w (script_path exec_dir) fs1))
  /\ (left_behind w = None ->
      failed_write w (script_path exec_dir) fs1 = fs1)
  /\ (forall written, left_behind w = Some written ->
      failed_write w (script_path exec_dir) fs1
      = <[script_path exec_dir := File written]> fs1)
  /\ forall e',
       temp_names e' = temp_names e -> mkdir_error e' = mkdir_error e ->
       write_error e' = write_error e -> rmtree_error e' = rmtree_error e ->
       execute e' data fs = execute e data fs.
Proof.
  intros Hv Hmk Hw.
  assert (forall e0 : env,
            mkdtemp e0 TMP_DIR fs = (Ok exec_dir, fs1) -> write_error e0 = Some w ->
            execute e0 data fs =
              (Ok (Response 500 (result_body "" (failure_text w) (-1) [] (PInt 0))),
               after_cleanup e0 exec_dir (failed_write w (script_path exec_dir) fs1)))
    as Hall.
  { intros e0 Hmk0 Hw0. rewrite (execute_outcome _ _ _ _ _ _ _ Hv Hmk0).
    unfold handlers. by rewrite (guarded_write_fails _ _ _ _ w fs1 Hw0). }
  split; [by apply Hall|].
  split; [intros Hleft; unfold failed_write; by rewrite Hleft|].
  split; [intros written Hleft; unfold failed_write; by rewrite Hleft|].
  intros e' Hnames Hmkdir Hwrite Hrm. rewrite (Hall e Hmk Hw), Hall.
  - unfold after_cleanup. by rewrite Hrm.
  - unfold mkdtemp. rewrite Hnames. by rewrite (mkdtemp_from_child_free e e').
  - by rewrite Hwrite.
Qed.

Lemma write_failure_reported_witness :
  let w := {| failure_class := "OSError";
              failure_text := "[Errno 28] No space left on device";
              left_behind := Some [] |} in
  let e := {| temp_names := ["tmpk3v9qz_x"]; mkdir_error := None;
              write_error := Some w;
              child := Sample.prints 0; rmtree_error := None |} in
  execute e (Sample.request "print(1)") Sample.fs_ready =
    (Ok (Response 500
           (result_body "" "[Errno 28] No space left on device" (-1) [] (PInt 0))),
     after_cleanup e Sample.ws
       (failed_write w (script_path Sample.ws) (<[Sample.ws := Dir]> Sample.fs_ready)))
  /\ (left_behind w = None ->
      failed_write w (script_path Sample.ws) (<[Sample.ws := Dir]> Sample.fs_ready)
      = <[Sample.ws := Dir]> Sample.fs_ready)
  /\ (forall written, left_behind w = Some written ->
      failed_write w (script_path Sample.ws) (<[Sample.ws := Dir]> Sample.fs_ready)
      = <[script_path Sample.ws := File written]> (<[Sample.ws := Dir]> Sample.fs_ready))
  /\ forall e',
       temp_names e' = temp_names e -> mkdir_error e' = mkdir_error e ->
       write_error e' = write_error e -> rmtree_error e' = rmtree_error e ->
       execute e' (Sample.request "print(1)") Sample.fs_ready
       = execute e (Sample.request "print(1)") Sample.fs_ready.
Proof.
  apply (write_failure_reported
           {| temp_names := ["tmpk3v9qz_x"]; mkdir_error := None;
              write_error := Some {| failure_class := "OSError";
                                     failure_text := "[Errno 28] No space left on device";
                                     left_behind := Some [] |};
              child := Sample.prints 0; rmtree_error := None |}
           (Sample.request "print(1)") (PStr "print(1)") (PInt 30)
           Sample.fs_ready Sample.ws (<[Sample.ws := Dir]> Sample.fs_ready)
           {| failure_class := "OSError";
              failure_text := "[Errno 28] No space left on device";
              left_behind := Some [] |}).
  - eexists. split; [reflexivity|]. split; reflexivity.
  - reflexivity.
  - reflexivity.
Defined.

(** When [subprocess.run] raises anything but the timeout (the
    interpreter cannot be started, the output is not valid text) the
    view answers with status 500 and the text of that exception, and
    the teardown runs on what the call left. *)
Theorem run_failure_reported e data code t fs exec_dir fs1 cls msg :
  valid_request data code t ->
  mkdtemp e TMP_DIR fs = (Ok exec_dir, fs1) ->
  write_error e = None ->
  how (child_run e exec_dir code t fs1) = Failed cls msg ->
  execute e data fs =
    (Ok (Response 500 (result_body "" msg (-1) [] (PInt 0))),
     after_cleanup e exec_dir (fs_after (child_run e exec_dir code t fs1))).
Proof.
  intros Hv Hmk Hw Hrun. rewrite (execute_outcome _ _ _ _ _ _ _ Hv Hmk).
  unfold handlers. by rewrite (guarded_run_fails _ _ _ _ _ cls msg Hw Hrun).
Qed.

Lemma run_failure_reported_witness :
  let e := Sample.env_of
             (fun fs _ _ _ =>
                {| how := Failed "UnicodeDecodeError"
                            "'utf-8' codec can't decode byte 0xff in position 0";
                   fs_after := fs; elapsed_ms := 9 |}) in
  execute e (Sample.request "import sys") Sample.fs_ready =
    (Ok (Response 500
           (result_body "" "'utf-8' codec can't decode byte 0xff in position 0"
              (-1) [] (PInt 0))),
     after_cleanup e Sample.ws
       (fs_after (child_run e Sample.ws (PStr "import sys") (PInt 30)
                    (<[Sample.ws := Dir]> Sample.fs_ready)))).
Proof.
  apply (run_failure_reported
           (Sample.env_of
              (fun fs _ _ _ =>
                 {| how := Failed "UnicodeDecodeError"
                             "'utf-8' codec can't decode byte 0xff in position 0";
                    fs_after := fs; elapsed_ms := 9 |}))
           (Sample.request "import sys") (PStr "import sys") (PInt 30)
           Sample.fs_ready Sample.ws (<[Sample.ws := Dir]> Sample.fs_ready)
           "UnicodeDecodeError" "'utf-8' codec can't decode byte 0xff in position 0").
  - eexists. split; [reflexivity|]. split; reflexivity.
  - reflexivity.
  - reflexivity.
  - reflexivity.
Defined.

End GuardedFailures.

(** ** A match that cannot be read *)

Section UnreadableImage.





End UnreadableImage.

(** ** Bodies and members of the wrong type *)

Section WrongTypes.

(** A [timeout] member that is not a number (a string, null, a list,
    an object) makes [min] raise a TypeError.  That happens before the
    scratch directory is made and outside the [try]: the exception
    leaves the view and the file system is untouched. *)
Theorem timeout_of_wrong_type_raises e kvs code v fs :
  dict_lookup "code" kvs = Some code ->
  dict_lookup "timeout" kvs = Some v ->
  as_int v = None ->
  execute e (PDict kvs) fs =
    (Raise (Error "TypeError"
              ("'<' not supported between instances of 'int' and '"
               +:+ type_name v +:+ "'")), fs).
Proof.
  intros Hcode Ht Hv. unfold execute.
  rewrite (dict_lookup_truthy _ _ _ Hcode). simpl.
  unfold mbind, M_bind, lift. simpl. rewrite Hcode.
  rewrite bool_decide_eq_true_2 by done. simpl.
  fold (effective_timeout (PDict kvs)). rewrite effective_timeout_dict, Ht. simpl.
  unfold min_int. by rewrite Hv.
Qed.

Lemma timeout_of_wrong_type_raises_witness :
  execute (Sample.env_of (Sample.prints 0))
    (PDict [("code", PStr "print(1)"); ("timeout", PStr "10")]) Sample.fs_ready =
    (Raise (Error "TypeError"
              ("'<' not supported between instances of 'int' and '"
               +:+ type_name (PStr "10") +:+ "'")), Sample.fs_ready).
Proof.
  apply (timeout_of_wrong_type_raises (Sample.env_of (Sample.prints 0))
           [("code", PStr "print(1)"); ("timeout", PStr "10")]
           (PStr "print(1)") (PStr "10") Sample.fs_ready); reflexivity.
Defined.

(** A body that is not a JSON object never gets as far as the scratch
    directory: it is answered with the missing-code error, or the
    membership test or the subscript raises a TypeError that leaves the
    view (a number, [true], a list with the element [code], a string
    with the text [code] in it).  The file system stays as it was. *)
Theorem non_object_body_not_run e data fs :
  (forall kvs, data <> PDict kvs) ->
  (execute e data fs).2 = fs
  /\ ((execute e data fs).1 = Ok missing_code
      \/ exists msg, (execute e data fs).1 = Raise (Error "TypeError" msg)).
Proof.
  intros Hnot. split.
  { apply no_code_no_workspace. intros code. destruct data; try done.
    by destruct (Hnot kvs). }
  unfold execute. destruct (truthy data) eqn:Htruthy; [|by left]. simpl.
  unfold mbind, M_bind, lift.
  destruct data as [|b|n|s|xs|kvs]; try done.
  - right. by eexists.
  - right. by eexists.
  - simpl. destruct (is_infix "code" s); [right; by eexists|by left].
  - simpl. destruct (existsb (is_str "code") xs); [right; by eexists|by left].
  - by destruct (Hnot kvs).
Qed.

Lemma non_object_body_not_run_witness :
  (execute (Sample.env_of (Sample.prints 0)) (PList [PStr "code"]) Sample.fs_ready).2
  = Sample.fs_ready
  /\ ((execute (Sample.env_of (Sample.prints 0)) (PList [PStr "code"]) Sample.fs_ready).1
      = Ok missing_code
      \/ exists msg,
           (execute (Sample.env_of (Sample.prints 0)) (PList [PStr "code"])
              Sample.fs_ready).1 = Raise (Error "TypeError" msg)).
Proof.
  apply (non_object_body_not_run (Sample.env_of (Sample.prints 0))
           (PList [PStr "code"]) Sample.fs_ready).
  intros kvs. discriminate.
Defined.

End WrongTypes.

(** ** Every way out of the view *)

Section WaysOut.

Lemma mkdtemp_from_raises e dir names : forall fs x fs',
  mkdtemp_from e dir names fs = (Raise x, fs') ->
  fs' = fs /\ exists cls msg, x = Error cls msg.
Proof.
  induction names as [|name rest IH]; intros fs x fs' Hmk.
  - injection Hmk as <- <-. split; [done|]. by do 2 eexists.
  - cbn [mkdtemp_from] in Hmk. unfold mkdir in Hmk.
    destruct (open_at MAXSYMLINKS dir fs);
      try (injection Hmk as <- <-; split; [done|]; by do 2 eexists).
    destruct (fs !! path_join dir name); [by apply IH|].
    destruct (mkdir_error e); [|done].
    injection Hmk as <- <-. split; [done|]. by do 2 eexists.
Qed.



(** What can leave the view as an exception: a TypeError from reading
    the body, or the error of [mkdtemp] for a request that passed the
    checks.  The timeout never does, nor does anything raised inside
    the [try]; and whenever an exception leaves, the file system is as
    it was before the request. *)
Theorem escaping_exceptions e data fs x :
  (execute e data fs).1 = Raise x ->
  (execute e data fs).2 = fs
  /\ x <> TimeoutExpired
  /\ ((exists msg, x = Error "TypeError" msg)
      \/ exists code t, valid_request data code t
                        /\ mkdtemp e TMP_DIR fs = (Raise x, fs)).
Proof.
  intros Hraise. unfold execute in *.
  destruct (truthy data) eqn:Htruthy; [|done]. simpl in *.
  unfold mbind, M_bind, lift in *.
  destruct (contains "code" data) as [[|]|y] eqn:Hin; try done.
  - simpl in *.
    destruct data as [| | | | |kvs]; try (simpl in *; simplify_eq; by eauto).
    destruct (getitem (PDict kvs) "code") as [code|y] eqn:Hget.
    + destruct (effective_timeout (PDict kvs)) as [t|y] eqn:Ht.
      * destruct (mkdtemp e TMP_DIR fs) as [[exec_dir|y] fs1] eqn:Hmk.
        -- rewrite finally_cleanup in Hraise. simpl in Hraise.
           unfold handlers in Hraise.
           by destruct (guarded _ _ _ _ _ fs1) as [[r|[|cls msg]] fs2].
        -- simpl in *. injection Hraise as ->.
           destruct (mkdtemp_from_raises _ _ _ _ _ _ Hmk) as (-> & cls & msg & ->).
           split; [done|]. split; [done|]. right. exists code, t. split; [|done].
           exists kvs. split; [done|]. split; [|done].
           simpl in Hget. destruct (dict_lookup "code" kvs); [|done].
           by injection Hget as ->.
      * simpl in *. injection Hraise as ->. split; [done|].
        rewrite effective_timeout_dict in Ht. unfold min_int in Ht.
        destruct (as_int _); [done|]. injection Ht as <-. split; [done|]. by eauto.
    + simpl in *. injection Hraise as ->. simpl in Hin, Hget.
      destruct (dict_lookup "code" kvs); [done|].
      by rewrite bool_decide_eq_false_2 in Hin by (by intros [? ?]).
  - simpl in *. injection Hraise as ->.
    destruct data; simpl in Hin; simplify_eq; split; try done; split; try done; eauto.
Qed.

Lemma escaping_exceptions_witness :
  (execute (Sample.env_of (Sample.prints 0)) (Sample.request "print(1)") ∅).2 = ∅
  /\ Error "FileNotFoundError"
       "[Errno 2] No such file or directory: '/tmp/sandbox/tmpk3v9qz_x'" <> TimeoutExpired
  /\ ((exists msg,
         Error "FileNotFoundError"
           "[Errno 2] No such file or directory: '/tmp/sandbox/tmpk3v9qz_x'"
         = Error "TypeError" msg)
      \/ exists code t,
           valid_request (Sample.request "print(1)") code t
           /\ mkdtemp (Sample.env_of (Sample.prints 0)) TMP_DIR ∅ =
                (Raise (Error "FileNotFoundError"
                          "[Errno 2] No such file or directory: '/tmp/sandbox/tmpk3v9qz_x'"),
                 ∅)).
Proof.
  apply (escaping_exceptions (Sample.env_of (Sample.prints 0))
           (Sample.request "print(1)") ∅).
  reflexivity.
Defined.

End WaysOut.

(** ** What a request leaves behind *)

Section Residue.

Lemma read_images_fs paths : forall acc (fs : fsys), (read_images paths acc fs).2 = fs.
Proof.
  induction paths as [|p paths IH]; intros acc fs; [done|].
  cbn [read_images]. unfold mbind, M_bind, read_bytes.
  destruct (open_at MAXSYMLINKS p fs) as [data| | | |]; [|done..].
  specialize (IH (acc ++ [file_entry p data]) fs).
  by destruct (read_images paths _ fs) as [[?|?] ?].
Qed.

(** The file system that the guarded part hands to the teardown: the
    one the failed write left when the script could not be written,
    the one the child left otherwise. *)
Lemma guarded_leaves e exec_dir code t fs1 :
  (guarded e exec_dir (script_path exec_dir) (wrapped_code exec_dir code) t fs1).2 =
    match write_error e with
    | Some w => failed_write w (script_path exec_dir) fs1
    | None => fs_after (child_run e exec_dir code t fs1)
    end.
Proof.
  unfold guarded, mbind, M_bind, write_text, subprocess_run.
  destruct (write_error e); [done|].
  fold (staged exec_dir code fs1). fold (child_run e exec_dir code t fs1).
  destruct (how _); try done. unfold collect.
  pose proof (read_images_fs
                (sorted (glob_png exec_dir (fs_after (child_run e exec_dir code t fs1))))
                [] (fs_after (child_run e exec_dir code t fs1))) as Hfs.
  by destruct (read_images _ _ _) as [[?|?] ?].
Qed.

Lemma handlers_fs t (m : M response) fs : (handlers t m fs).2 = (m fs).2.
Proof. unfold handlers. by destruct (m fs) as [[?|[|? ?]] ?]. Qed.

(** A request leaves no trace: when the removal does not fail and the
    child changed nothing outside its scratch directory, the file
    system after the view has returned is the one before the request,
    whatever the outcome was.  (Nothing lay below the name that was
    free, as in any file system.) *)
Theorem no_residue e data code t fs exec_dir fs1 :
  valid_request data code t ->
  mkdtemp e TMP_DIR fs = (Ok exec_dir, fs1) ->
  rmtree_error e = None ->
  (forall p, within exec_dir p = true -> fs !! p = None) ->
  (forall p, within exec_dir p = false ->
             fs_after (child_run e exec_dir code t fs1) !! p = fs !! p) ->
  (execute e data fs).2 = fs.
Proof.
  intros Hv Hmk Hrm Hbelow Hconfined.
  destruct (mkdtemp_fresh _ _ _ _ _ Hmk) as (_ & Hfs1 & _).
  rewrite (execute_outcome _ _ _ _ _ _ _ Hv Hmk). simpl.
  rewrite handlers_fs, guarded_leaves. unfold after_cleanup. rewrite Hrm.
  apply map_eq. intros p. destruct (within exec_dir p) eqn:Hp.
  - rewrite remove_tree_within by done. symmetry. by apply Hbelow.
  - rewrite remove_tree_outside by done.
    destruct (write_error e) as [w|]; [|by apply Hconfined].
    assert (fs1 !! p = fs !! p) as Hsame.
    { rewrite Hfs1. apply lookup_insert_ne. intros <-.
      by rewrite within_self in Hp. }
    unfold failed_write. destruct (left_behind w); [|done].
    rewrite lookup_insert_ne; [done|].
    unfold script_path. intros <-. by rewrite within_join in Hp.
Qed.

Lemma no_residue_witness :
  (execute (Sample.env_of Sample.hangs) (Sample.request "import time") Sample.fs_ready).2
  = Sample.fs_ready.
Proof.
  apply (no_residue (Sample.env_of Sample.hangs) (Sample.request "import time")
           (PStr "import time") (PInt 30) Sample.fs_ready Sample.ws
           (<[Sample.ws := Dir]> Sample.fs_ready)).
  - eexists. split; [reflexivity|]. split; reflexivity.
  - reflexivity.
  - reflexivity.
  - intros p Hp. unfold Sample.fs_ready. apply lookup_singleton_None.
    intros <-. by vm_compute in Hp.
  - intros p Hp.
    change (fs_after (child_run (Sample.env_of Sample.hangs) Sample.ws
                        (PStr "import time") (PInt 30)
                        (<[Sample.ws := Dir]> Sample.fs_ready)))
      with (<[path_join Sample.ws "plot.png" := File [x89; x50]]>
              (staged Sample.ws (PStr "import time")
                 (<[Sample.ws := Dir]> Sample.fs_ready))).
    rewrite lookup_insert_ne by (intros <-; by rewrite within_join in Hp).
    unfold staged, script_path.
    rewrite lookup_insert_ne by (intros <-; by rewrite within_join in Hp).
    apply lookup_insert_ne. intros <-. by rewrite within_self in Hp.
Defined.

End Residue.

(** ** Two scratch directories do not meet *)

Section Isolation.

Lemma has_slash_cons c s :
  has_slash (String c s) = Ascii.eqb c "/" || has_slash s.
Proof.
  unfold has_slash. cbn [is_infix String.prefix].
  destruct (ascii_dec "/" c) as [<-|Hne].
  - by destruct s.
  - assert (Ascii.eqb c "/" = false) as -> by (apply Ascii.eqb_neq; congruence). done.
Qed.

Lemma first_segment a : forall b ra rb,
  a +:+ ra = b +:+ rb -> segment_end ra -> segment_end rb ->
  has_slash a = false -> has_slash b = false -> a = b.
Proof.
  induction a as [|c a IH]; intros [|c' b] ra rb Heq Hra Hrb Ha Hb; [done| | |].
  - rewrite app_empty_l, app_cons in Heq. rewrite has_slash_cons in Hb.
    apply orb_false_iff in Hb as [Hc' _].
    destruct Hra as [->|[x ->]]; [done|].
    injection Heq as <- _. done.
  - rewrite app_empty_l, app_cons in Heq. rewrite has_slash_cons in Ha.
    apply orb_false_iff in Ha as [Hc _].
    destruct Hrb as [->|[x ->]]; [done|].
    injection Heq as -> _. done.
  - rewrite !app_cons in Heq. injection Heq as -> Heq.
    rewrite has_slash_cons in Ha, Hb.
    apply orb_false_iff in Ha as [_ Ha]. apply orb_false_iff in Hb as [_ Hb].
    f_equal. by eapply IH.
Qed.

Lemma within_inv d p : within d p = true -> exists r, p = d +:+ r /\ segment_end r.
Proof.
  unfold within. intros [Heq|Hpre]%orb_true_iff.
  - apply String.eqb_eq in Heq as ->. exists "". split; [|by left].
    induction d as [|c d IH]; [done|]. rewrite app_cons. by f_equal.
  - apply prefix_inv in Hpre. rewrite app_assoc_str in Hpre.
    eexists. split; [exact Hpre|]. right. by eexists.
Qed.

Lemma glob_png_within d (fs : fsys) p : p ∈ glob_png d fs -> within d p = true.
Proof.
  intros [_ (n & -> & _)%is_png_of_inv]%elem_of_glob_png. apply within_join.
Qed.

(** Two scratch directories with different names under the same root
    share no path.  So the teardown of one request removes nothing of
    another request's directory, and the images of another request are
    never in the listing that a request collects. *)
Theorem workspaces_do_not_meet root a b (fs : fsys) p :
  a <> b -> has_slash a = false -> has_slash b = false ->
  within (path_join root b) p = true ->
  within (path_join root a) p = false
  /\ remove_tree (path_join root a) fs !! p = fs !! p
  /\ p ∉ glob_png (path_join root a) fs.
Proof.
  intros Hab Ha Hb Hp.
  assert (within (path_join root a) p = false) as Hout.
  { destruct (within (path_join root a) p) eqn:Hpa; [|done]. exfalso.
    apply within_inv in Hp as (rb & -> & Hrb).
    apply within_inv in Hpa as (ra & Heq & Hra).
    unfold path_join in Heq. rewrite !app_assoc_str in Heq.
    apply (inj (String.app root)), (inj (String.app "/")) in Heq.
    apply Hab. symmetry. by eapply first_segment. }
  split; [done|]. split; [by apply remove_tree_outside|].
  intros Hin%glob_png_within. congruence.
Qed.

Lemma workspaces_do_not_meet_witness :
  within (path_join TMP_DIR "tmpk3v9qz_x")
    (path_join (path_join TMP_DIR "tmpk3v9qz") "figure_0.png") = false
  /\ remove_tree (path_join TMP_DIR "tmpk3v9qz_x") Sample.fs_ready
       !! path_join (path_join TMP_DIR "tmpk3v9qz") "figure_0.png"
     = Sample.fs_ready !! path_join (path_join TMP_DIR "tmpk3v9qz") "figure_0.png"
  /\ path_join (path_join TMP_DIR "tmpk3v9qz") "figure_0.png"
       ∉ glob_png (path_join TMP_DIR "tmpk3v9qz_x") Sample.fs_ready.
Proof.
  apply (workspaces_do_not_meet TMP_DIR "tmpk3v9qz_x" "tmpk3v9qz" Sample.fs_ready
           (path_join (path_join TMP_DIR "tmpk3v9qz") "figure_0.png")).
  - discriminate.
  - reflexivity.
  - reflexivity.
  - reflexivity.
Defined.

End Isolation.

(** ** The names in the list of files *)

Section Names.

Lemma drop_chars_split k : forall s, exists pre, s = pre +:+ drop_chars k s.
Proof.
  induction k as [|k IH]; intros s; [by exists ""|].
  destruct s as [|c s]; [by exists ""|].
  destruct (IH s) as [pre Hpre]. exists (String c pre).
  rewrite app_cons. simpl. by f_equal.
Qed.

Lemma ends_with_inv suffix s :
  ends_with suffix s = true -> exists stem, s = stem +:+ suffix.
Proof.
  unfold ends_with. intros [Heq _]%andb_true_iff. apply String.eqb_eq in Heq.
  destruct (drop_chars_split (String.length s - String.length suffix) s) as [stem Hs].
  exists stem. by rewrite Heq in Hs.
Qed.

Lemma entry_name_image_entry n data : entry_name (image_entry n data) = n.
Proof. reflexivity. Qed.

(** Every entry of a collection that succeeded carries a plain file
    name: a non-empty stem followed by [.png], in lower case as
    written, with no directory part and no leading dot.  The staged
    script is never among them. *)
Theorem collected_names_shape exec_dir (fs : fsys) files fs' entry :
  collect exec_dir fs = (Ok files, fs') ->
  entry ∈ files ->
  exists stem,
    entry_name entry = stem +:+ ".png"
    /\ stem <> ""
    /\ has_slash (entry_name entry) = false
    /\ String.prefix "." (entry_name entry) = false
    /\ entry_name entry <> "script.py".
Proof.
  intros (-> & Hfiles & ->)%collect_inv Hentry.
  apply (collected_entries _ _ _ Hfiles) in Hentry as (n & data & _ & Hslash & Hpng & ->).
  rewrite entry_name_image_entry.
  unfold matches_png in Hpng. apply andb_true_iff in Hpng as [Hends Hdot].
  apply negb_true_iff in Hdot.
  destruct (ends_with_inv _ _ Hends) as [stem ->].
  exists stem. split; [done|]. split; [by intros ->|]. split; [done|]. split; [done|].
  intros Hscript. by rewrite Hscript in Hends.
Qed.

Lemma collected_names_shape_witness :
  exists stem,
    entry_name (image_entry "plot.png" [x89; x50]) = stem +:+ ".png"
    /\ stem <> ""
    /\ has_slash (entry_name (image_entry "plot.png" [x89; x50])) = false
    /\ String.prefix "." (entry_name (image_entry "plot.png" [x89; x50])) = false
    /\ entry_name (image_entry "plot.png" [x89; x50]) <> "script.py".
Proof.
  apply (collected_names_shape Sample.ws
           (fs_after (Sample.hangs (<[Sample.ws := Dir]> Sample.fs_ready) "" Sample.ws PNone))
           [image_entry "plot.png" [x89; x50]]
           (fs_after (Sample.hangs (<[Sample.ws := Dir]> Sample.fs_ready) "" Sample.ws PNone))
           (image_entry "plot.png" [x89; x50])).
  - vm_compute. reflexivity.
  - by left.
Defined.

End Names.

(** ** The clamp and the timeout report together *)

Section ClampedReport.

Lemma min_int_int n : min_int (PInt n) TIMEOUT_MAX = Ok (PInt (Z.min n TIMEOUT_MAX)).
Proof.
  unfold min_int. simpl. destruct (Z.ltb_spec TIMEOUT_MAX n); do 2 f_equal; lia.
Qed.

(** The report of a timeout speaks of the clamped value, not of the
    requested one: for a requested integer [n] the message names
    [min n 60] seconds and the time is [min n 60 * 1000]; a request
    for an hour that times out is reported as 60 seconds and 60000
    milliseconds. *)
Theorem timeout_report_is_clamped e kvs code n fs exec_dir fs1 out err :
  dict_lookup "code" kvs = Some code ->
  dict_lookup "timeout" kvs = Some (PInt n) ->
  mkdtemp e TMP_DIR fs = (Ok exec_dir, fs1) ->
  write_error e = None ->
  how (child_run e exec_dir code (PInt (Z.min n TIMEOUT_MAX)) fs1) = TimedOut out err ->
  (execute e (PDict kvs) fs).1 =
    Ok (Response 200
          (result_body ""
             ("Execution timed out after " +:+ pretty (Z.min n TIMEOUT_MAX) +:+ " seconds")
             (-1) [] (PInt (Z.min n TIMEOUT_MAX * 1000)))).
Proof.
  intros Hcode Ht Hmk Hw Hrun.
  assert (valid_request (PDict kvs) code (PInt (Z.min n TIMEOUT_MAX))) as Hv.
  { exists kvs. split; [done|]. split; [done|].
    rewrite effective_timeout_dict, Ht. apply min_int_int. }
  by rewrite (execute_timed_out _ _ _ _ _ _ _ Hv Hmk out err Hw Hrun).
Qed.

Lemma timeout_report_is_clamped_witness :
  (execute (Sample.env_of Sample.hangs)
     (PDict [("code", PStr "while True: pass"); ("timeout", PInt 3600)])
     Sample.fs_ready).1 =
    Ok (Response 200
          (result_body ""
             ("Execution timed out after " +:+ pretty (Z.min 3600 TIMEOUT_MAX) +:+ " seconds")
             (-1) [] (PInt (Z.min 3600 TIMEOUT_MAX * 1000)))).
Proof.
  apply (timeout_report_is_clamped (Sample.env_of Sample.hangs)
           [("code", PStr "while True: pass"); ("timeout", PInt 3600)]
           (PStr "while True: pass") 3600 Sample.fs_ready Sample.ws
           (<[Sample.ws := Dir]> Sample.fs_ready) "partial" "");
    reflexivity.
Defined.

End ClampedReport.

(** ** The figures of a run, from the export loop to the response *)

Section FiguresInOrder.

Lemma figure_name_matches i :
  i < 11 -> has_slash (figure_name i) = false /\ matches_png (figure_name i) = true.
Proof.
  intros Hi. do 11 (destruct i as [|i]; [by split|]). lia.
Qed.

Lemma lookup_figure_paths d n i :
  i < n -> map (fun j => path_join d (figure_name j)) (seq 0 n) !! i
           = Some (path_join d (figure_name i)).
Proof.
  intros Hi. rewrite list_lookup_fmap, lookup_seq_lt by done. done.
Qed.

Lemma elem_of_figure_paths d n p :
  p ∈ map (fun j => path_join d (figure_name j)) (seq 0 n)
  <-> exists i, i < n /\ p = path_join d (figure_name i).
Proof.
  rewrite list_elem_of_fmap. split.
  - intros (i & -> & Hi%elem_of_seq). exists i. split; [lia|done].
  - intros (i & Hi & ->). exists i. split; [done|]. apply elem_of_seq. lia.
Qed.

(** After the export loop on a program that wrote no image of its own,
    the scratch directory lists exactly the numbered files, one per
    open figure, and each holds its figure at 150 dpi. *)
Lemma figures_listed blank d (reg : registry) (user_fs : fsys) :
  length (get_fignums reg) <= 11 ->
  glob_png d user_fs = [] ->
  glob_png d (autosave blank d reg user_fs).2
    ≡ₚ map (fun j => path_join d (figure_name j)) (seq 0 (length (get_fignums reg)))
  /\ forall i k (fig : figure),
       get_fignums reg !! i = Some k -> reg !! k = Some fig ->
       (autosave blank d reg user_fs).2 !! path_join d (figure_name i)
       = Some (File (fig 150%Z)).
Proof.
  intros Hlen Huser.
  destruct (autosave_spec blank d reg user_fs) as (_ & Hsaved & Hother).
  split; [|done].
  apply NoDup_Permutation.
  - apply NoDup_glob_png.
  - apply NoDup_fmap_2; [|apply NoDup_seq].
    intros i j Hij. by apply path_join_inj, figure_name_inj in Hij.
  - intros p. rewrite elem_of_figure_paths, elem_of_glob_png. split.
    + intros [Hsome Hpng].
      destruct (decide (p ∈ map (fun j => path_join d (figure_name j))
                              (seq 0 (length (get_fignums reg))))) as [Hin|Hnin].
      { by apply elem_of_figure_paths. }
      exfalso. assert (p ∈ glob_png d user_fs) as Hp.
      { apply elem_of_glob_png. split; [|done]. rewrite <- (Hother p); [done|].
        intros i Hi ->. apply Hnin, elem_of_figure_paths. by exists i. }
      rewrite Huser in Hp. by apply elem_of_nil in Hp.
    + intros (i & Hi & ->).
      destruct (lookup_lt_is_Some_2 (get_fignums reg) i Hi) as [k Hk].
      assert (is_Some (reg !! k)) as [fig Hfig].
      { apply elem_of_get_fignums. by eapply list_elem_of_lookup_2. }
      split; [by rewrite (Hsaved i k fig Hk Hfig)|].
      rewrite is_png_of_join.
      destruct (figure_name_matches i) as [-> ->]; [lia|done].
Qed.

Lemma figure_paths_sorted d n :
  n <= 10 -> StronglySorted String.le (map (fun j => path_join d (figure_name j)) (seq 0 n)).
Proof.
  intros Hn.
  assert (StronglySorted String.le (map figure_name (seq 0 n))) as Hnames.
  { do 11 (destruct n as [|n]; [by repeat constructor|]). lia. }
  rewrite <- (map_map figure_name (path_join d)).
  eapply StronglySorted_map; [|exact Hnames].
  intros a b _ _ Hab. by apply le_path_join.
Qed.

(** With at most ten open figures the list of files in the response
    follows the figures: the entry at position [i] is [figure_i.png]
    and holds the figure that is [i]-th by number, rendered at 150
    dpi; there are as many entries as figures.  (The program wrote no
    image of its own into the scratch directory.) *)
Theorem figures_in_order e data code t fs0 exec_dir fs1 out err rc
    blank (reg : registry) (user_fs : fsys) :
  valid_request data code t ->
  mkdtemp e TMP_DIR fs0 = (Ok exec_dir, fs1) ->
  write_error e = None ->
  how (child_run e exec_dir code t fs1) = Exited out err rc ->
  length (get_fignums reg) <= 10 ->
  glob_png exec_dir user_fs = [] ->
  fs_after (child_run e exec_dir code t fs1) = (autosave blank exec_dir reg user_fs).2 ->
  exists resp files,
    (execute e data fs0).1 = Ok resp
    /\ status resp = 200%Z
    /\ field "files" resp = Some (PList files)
    /\ length files = length (get_fignums reg)
    /\ forall i k (fig : figure),
         get_fignums reg !! i = Some k -> reg !! k = Some fig ->
         files !! i = Some (image_entry (figure_name i) (fig 150%Z)).
Proof.
  intros Hv Hmk Hw Hrun Hlen Huser Hafter.
  set (n := length (get_fignums reg)) in *.
  set (fs2 := (autosave blank exec_dir reg user_fs).2) in *.
  set (paths := map (fun j => path_join exec_dir (figure_name j)) (seq 0 n)).
  destruct (figures_listed blank exec_dir reg user_fs) as (Hperm & Hsaved);
    [unfold n in Hlen; lia|done|].
  fold n fs2 paths in Hperm, Hsaved.
  assert (sorted (glob_png exec_dir fs2) = paths) as Hsorted.
  { apply sorted_unique; [done|]. by apply figure_paths_sorted. }
  assert (forall p, p ∈ glob_png exec_dir fs2 -> exists bytes, fs2 !! p = Some (File bytes))
    as Hfiles.
  { intros p Hp. rewrite Hperm in Hp. apply elem_of_figure_paths in Hp as (i & Hi & ->).
    destruct (lookup_lt_is_Some_2 (get_fignums reg) i Hi) as [k Hk].
    assert (is_Some (reg !! k)) as [fig Hfig].
    { apply elem_of_get_fignums. by eapply list_elem_of_lookup_2. }
    eexists. by apply (Hsaved i k fig). }
  exists (Response 200 (result_body out err rc (map (entry_of fs2) paths)
                          (PInt (elapsed_ms (child_run e exec_dir code t fs1))))),
         (map (entry_of fs2) paths).
  split.
  { eapply execute_exited; eauto. rewrite Hafter. fold fs2.
    rewrite collect_ok by done. by rewrite Hsorted. }
  split; [done|]. split; [done|]. split.
  { unfold paths. by rewrite !length_map, length_seq. }
  intros i k fig Hk Hfig.
  assert (i < n) as Hi by (by eapply lookup_lt_Some).
  rewrite list_lookup_fmap. unfold paths. rewrite lookup_figure_paths by done.
  simpl. f_equal. apply entry_of_join; [|by apply (Hsaved i k fig)].
  apply figure_name_matches. lia.
Qed.

Lemma figures_in_order_witness :
  exists resp files,
    (execute (Sample.env_of Sample.draws_two) (Sample.request "plt.plot([1])")
       Sample.fs_ready).1 = Ok resp
    /\ status resp = 200%Z
    /\ field "files" resp = Some (PList files)
    /\ length files = length (get_fignums Sample.two_open)
    /\ forall i k (fig : figure),
         get_fignums Sample.two_open !! i = Some k -> Sample.two_open !! k = Some fig ->
         files !! i = Some (image_entry (figure_name i) (fig 150%Z)).
Proof.
  apply (figures_in_order (Sample.env_of Sample.draws_two)
           (Sample.request "plt.plot([1])") (PStr "plt.plot([1])") (PInt 30)
           Sample.fs_ready Sample.ws (<[Sample.ws := Dir]> Sample.fs_ready) "" "" 0%Z
           (fun _ => []) Sample.two_open
           (staged Sample.ws (PStr "plt.plot([1])") (<[Sample.ws := Dir]> Sample.fs_ready))).
  - eexists. split; [reflexivity|]. split; reflexivity.
  - reflexivity.
  - reflexivity.
  - reflexivity.
  - vm_compute. lia.
  - reflexivity.
  - reflexivity.
Defined.

End FiguresInOrder.

Section EleventhFigure.

Lemma eleven_by_name_perm : eleven_by_name ≡ₚ seq 0 11.
Proof.
  rewrite <- (merge_sort_Permutation Nat.le eleven_by_name). reflexivity.
Qed.

(** With eleven open figures the list no longer follows the figures:
    the files come in the order of their names, so the eleventh figure
    is the third entry and every later figure moves one place down. *)
Theorem eleven_figures_by_name e data code t fs0 exec_dir fs1 out err rc
    blank (reg : registry) (user_fs : fsys) :
  valid_request data code t ->
  mkdtemp e TMP_DIR fs0 = (Ok exec_dir, fs1) ->
  write_error e = None ->
  how (child_run e exec_dir code t fs1) = Exited out err rc ->
  length (get_fignums reg) = 11 ->
  glob_png exec_dir user_fs = [] ->
  fs_after (child_run e exec_dir code t fs1) = (autosave blank exec_dir reg user_fs).2 ->
  exists resp files,
    (execute e data fs0).1 = Ok resp
    /\ field "files" resp = Some (PList files)
    /\ length files = 11
    /\ forall pos i k (fig : figure),
         eleven_by_name !! pos = Some i ->
         get_fignums reg !! i = Some k -> reg !! k = Some fig ->
         files !! pos = Some (image_entry (figure_name i) (fig 150%Z)).
Proof.
  intros Hv Hmk Hw Hrun Hlen Huser Hafter.
  set (fs2 := (autosave blank exec_dir reg user_fs).2) in *.
  set (paths := map (fun j => path_join exec_dir (figure_name j)) eleven_by_name).
  destruct (figures_listed blank exec_dir reg user_fs) as (Hperm & Hsaved);
    [lia|done|].
  fold fs2 in Hperm, Hsaved. rewrite Hlen in Hperm.
  assert (sorted (glob_png exec_dir fs2) = paths) as Hsorted.
  { apply sorted_unique.
    - rewrite Hperm. unfold paths. apply Permutation_map.
      symmetry. apply eleven_by_name_perm.
    - unfold paths. rewrite <- (map_map figure_name (path_join exec_dir)).
      apply (StronglySorted_map String.le String.le).
      + intros a b _ _ Hab. by apply le_path_join.
      + unfold eleven_by_name. cbn [map]. by repeat constructor. }
  assert (forall i, i < 11 -> exists k (fig : figure),
            get_fignums reg !! i = Some k /\ reg !! k = Some fig) as Hfig.
  { intros i Hi. rewrite <- Hlen in Hi.
    destruct (lookup_lt_is_Some_2 (get_fignums reg) i Hi) as [k Hk].
    assert (is_Some (reg !! k)) as [fig Hfig].
    { apply elem_of_get_fignums. by eapply list_elem_of_lookup_2. }
    by exists k, fig. }
  assert (forall p, p ∈ glob_png exec_dir fs2 -> exists bytes, fs2 !! p = Some (File bytes))
    as Hfiles.
  { intros p Hp. rewrite Hperm in Hp. apply elem_of_figure_paths in Hp as (i & Hi & ->).
    destruct (Hfig i Hi) as (k & fig & Hk & Hreg). eexists. by apply (Hsaved i k fig). }
  exists (Response 200 (result_body out err rc (map (entry_of fs2) paths)
                          (PInt (elapsed_ms (child_run e exec_dir code t fs1))))),
         (map (entry_of fs2) paths).
  split.
  { eapply execute_exited; eauto. rewrite Hafter. fold fs2.
    rewrite collect_ok by done. by rewrite Hsorted. }
  split; [done|]. split; [done|].
  intros pos i k fig Hpos Hk Hreg.
  assert (i < 11) as Hi.
  { apply list_elem_of_lookup_2 in Hpos. rewrite eleven_by_name_perm in Hpos.
    apply elem_of_seq in Hpos. lia. }
  rewrite list_lookup_fmap. unfold paths. rewrite list_lookup_fmap, Hpos. simpl.
  f_equal. apply entry_of_join; [|by apply (Hsaved i k fig)].
  by apply figure_name_matches.
Qed.

Lemma eleven_figures_by_name_witness :
  exists resp files,
    (execute (Sample.env_of Sample.draws_eleven) (Sample.request "plt.plot([1])")
       Sample.fs_ready).1 = Ok resp
    /\ field "files" resp = Some (PList files)
    /\ length files = 11
    /\ forall pos i k (fig : figure),
         eleven_by_name !! pos = Some i ->
         get_fignums Sample.eleven_open !! i = Some k ->
         Sample.eleven_open !! k = Some fig ->
         files !! pos = Some (image_entry (figure_name i) (fig 150%Z)).
Proof.
  apply (eleven_figures_by_name (Sample.env_of Sample.draws_eleven)
           (Sample.request "plt.plot([1])") (PStr "plt.plot([1])") (PInt 30)
           Sample.fs_ready Sample.ws (<[Sample.ws := Dir]> Sample.fs_ready) "" "" 0%Z
           (fun _ => []) Sample.eleven_open
           (staged Sample.ws (PStr "plt.plot([1])") (<[Sample.ws := Dir]> Sample.fs_ready))).
  - eexists. split; [reflexivity|]. split; reflexivity.
  - reflexivity.
  - reflexivity.
  - reflexivity.
  - reflexivity.
  - reflexivity.
  - reflexivity.
Defined.

End EleventhFigure.

(** ** The text of a payload *)

Section Payload.

Lemma digit_in_alphabet n : (n < 64)%N -> is_Some (value (digit n)).
Proof. intros Hn. rewrite value_digit by done. by eexists. Qed.

(** The base64 text of a file has four characters for every three
    bytes, the last group filled up; each character is one of the
    sixty-four digits or the padding sign; and different contents
    never give the same text. *)
Theorem base64_payload bs :
  String.length (b64encode bs) = 4 * ((length bs + 2) / 3)
  /\ Forall (fun c => c = pad \/ is_Some (value c)) (String.list_ascii_of_string (b64encode bs))
  /\ forall bs', b64encode bs = b64encode bs' -> bs = bs'.
Proof.
  split; [|split].
  - induction bs as [|a|a b|a b c rest IH] using list_ind3; [done..|].
    cbn [b64encode String.length length]. rewrite IH.
    replace (S (S (S (length rest))) + 2) with (1 * 3 + (length rest + 2)) by lia.
    rewrite Nat.div_add_l by done. lia.
  - induction bs as [|a|a b|a b c rest IH] using list_ind3; [by constructor| | |].
    + cbn [b64encode String.list_ascii_of_string]. rewrite !digit_at_sextet.
      constructor; [right; apply digit_in_alphabet, sextet_lt|].
      constructor; [right; apply digit_in_alphabet, sextet_lt|].
      constructor; [by left|]. constructor; [by left|]. constructor.
    + cbn [b64encode String.list_ascii_of_string]. rewrite !digit_at_sextet.
      constructor; [right; apply digit_in_alphabet, sextet_lt|].
      constructor; [right; apply digit_in_alphabet, sextet_lt|].
      constructor; [right; apply digit_in_alphabet, sextet_lt|].
      constructor; [by left|]. constructor.
    + cbn [b64encode String.list_ascii_of_string]. rewrite !digit_at_sextet.
      constructor; [right; apply digit_in_alphabet, sextet_lt|].
      constructor; [right; apply digit_in_alphabet, sextet_lt|].
      constructor; [right; apply digit_in_alphabet, sextet_lt|].
      constructor; [right; apply digit_in_alphabet, sextet_lt|]. exact IH.
  - intros bs' Heq. apply (f_equal b64decode) in Heq.
    rewrite !b64decode_b64encode in Heq. by injection Heq.
Qed.

End Payload.

(** ** What the collection reads *)

Section CollectionFrame.





End CollectionFrame.
